(** * Crop disease detection service: catalog, preprocessing and inference

    A shallow embedding of [backend/disease_treatments.py],
    [backend/model_utils.py] and [backend/main.py], together with the
    properties of the treatment catalog and of the prediction pipeline.

    Python values are modelled as follows.
    - A call that may raise returns a [result]; [try ... except Exception]
      is [try_except].
    - A JSON document as returned by [json.load] is a [json] value; a Python
      [dict] is an association list in insertion order, read with
      [dict_get] and written with [dict_set] (first binding wins on read,
      a write to a bound key replaces the value in place).
    - Probabilities and pixel samples are exact rationals: every float32 is
      a rational, and for a float32 [c] the binary64 product [c * 100] is
      exact (24 + 7 significant bits), so [round (c * 100, 2)] is the
      half-even rounding of the exact value. NaN and infinities are outside
      the model.
    - Library functions (PIL decoding, conversion and resampling, Keras
      models, the text Python prints for a non-string value) are section
      variables. *)

From Stdlib Require Import String Ascii List ZArith QArith Qround Lia Bool.
From Stdlib Require Import DecimalString Decimal.
From Stdlib Require Import Qabs Lqa Sorted.
Import ListNotations.
Close Scope Q_scope.
Open Scope string_scope.

Set Implicit Arguments.
Set Warnings "-register-all".

(** ** Python runtime values *)

Module Py.

Inductive exn : Type :=
| KeyError (key : string)
| TypeError (msg : string)
| AttributeError (msg : string)
| ValueError (msg : string)
| IndexError (msg : string)
| OSError (msg : string)
| JSONDecodeError (msg : string)
| LibraryError (msg : string)
| HTTPException (status_code : Z) (detail : string).

Inductive result (A : Type) : Type :=
| Ok (a : A)
| Raise (e : exn).

Arguments Ok {A} a.
Arguments Raise {A} e.

Definition bind {A B} (r : result A) (k : A -> result B) : result B :=
  match r with
  | Ok a => k a
  | Raise e => Raise e
  end.

(** [try: body except Exception as e: handler e] *)
Definition try_except {A} (body : result A) (handler : exn -> result A)
  : result A :=
  match body with
  | Ok a => Ok a
  | Raise e => handler e
  end.

Definition returns {A} (r : result A) : Prop := exists a, r = Ok a.
Definition raises {A} (r : result A) : Prop := exists e, r = Raise e.

Definition nl : string := String (ascii_of_nat 10) EmptyString.

Definition str_of_Z (z : Z) : string := NilZero.string_of_int (Z.to_int z).

(** [str(e)]. A [KeyError] prints the repr of its key (exact for keys
    without quotes or escapes); Starlette's [HTTPException] prints
    status and detail. *)
Definition str_exn (e : exn) : string :=
  match e with
  | KeyError k => "'" ++ k ++ "'"
  | TypeError m | AttributeError m | ValueError m | IndexError m
  | OSError m | JSONDecodeError m | LibraryError m => m
  | HTTPException s d => str_of_Z s ++ ": " ++ d
  end.

(** Values produced by [json.load]. A number carries its literal. *)
Inductive json : Type :=
| JNull
| JBool (b : bool)
| JNum (lit : string)
| JStr (s : string)
| JArr (items : list json)
| JObj (members : list (string * json)).

Definition dict := list (string * json).

Fixpoint dict_get (k : string) (d : dict) : option json :=
  match d with
  | [] => None
  | (k', v) :: t => if String.eqb k k' then Some v else dict_get k t
  end.

Definition dict_mem (k : string) (d : dict) : bool :=
  match dict_get k d with Some _ => true | None => false end.

(** [d[k] = v] *)
Fixpoint dict_set (k : string) (v : json) (d : dict) : dict :=
  match d with
  | [] => [(k, v)]
  | (k', v') :: t =>
      if String.eqb k k' then (k', v) :: t else (k', v') :: dict_set k v t
  end.

Definition keys (d : dict) : list string := map fst d.

(** [x.items()] *)
Definition items (x : json) : result dict :=
  match x with
  | JObj m => Ok m
  | _ => Raise (AttributeError "object has no attribute 'items'")
  end.

(** [sub in s] on strings *)
Fixpoint str_contains (sub s : string) : bool :=
  String.prefix sub s ||
  match s with
  | EmptyString => false
  | String _ t => str_contains sub t
  end.

Definition json_eq_str (name : string) (x : json) : bool :=
  match x with
  | JStr s => String.eqb name s
  | _ => false
  end.

(** [name in x] for a string [name] *)
Definition contains (name : string) (x : json) : result bool :=
  match x with
  | JObj m => Ok (dict_mem name m)
  | JArr l => Ok (existsb (json_eq_str name) l)
  | JStr s => Ok (str_contains name s)
  | _ => Raise (TypeError "argument is not iterable")
  end.

(** [x[key]] for a string [key] *)
Definition getitem (x : json) (key : string) : result json :=
  match x with
  | JObj m =>
      match dict_get key m with
      | Some v => Ok v
      | None => Raise (KeyError key)
      end
  | JArr _ => Raise (TypeError "list indices must be integers or slices, not str")
  | JStr _ => Raise (TypeError "string indices must be integers, not 'str'")
  | _ => Raise (TypeError "object is not subscriptable")
  end.

(** [for x in l: acc = f acc x], stopping at the first exception *)
Fixpoint for_each {A S} (f : S -> A -> result S) (acc : S) (l : list A)
  : result S :=
  match l with
  | [] => Ok acc
  | x :: t => bind (f acc x) (fun acc' => for_each f acc' t)
  end.

End Py.

Import Py.

Notation "x <- c1 ;; c2" := (Py.bind c1 (fun x => c2))
  (at level 61, c1 at next level, right associativity).

(** The substring relation used by the properties of composed messages. *)
Definition has_substring (sub s : string) : Prop :=
  exists pre post, s = pre ++ sub ++ post.

(** ** disease_treatments.py *)

Module Treatments.

(** State of one knowledge-base file: missing, or present with the outcome
    of [open] followed by [json.load]. *)
Inductive resource : Type :=
| Absent
| Present (loaded : result json).

Record knowledge_base : Type := {
  comprehensive : resource;   (* comprehensive_disease_treatments.json *)
  flat : resource             (* disease_treatments.json *)
}.

Definition flatten_diseases (flattened : dict) (crop_entry : string * json)
  : result dict :=
  diseases <- items (snd crop_entry) ;;
  for_each (fun acc (d : string * json) => Ok (dict_set (fst d) (snd d) acc))
           flattened diseases.

Definition flatten_crops (flattened : dict) (category_entry : string * json)
  : result dict :=
  crops <- items (snd category_entry) ;;
  for_each flatten_diseases flattened crops.

Definition flatten_disease_database (comprehensive_data : json)
  : result json :=
  categories <- items comprehensive_data ;;
  flattened <- for_each flatten_crops [] categories ;;
  Ok (JObj flattened).

Definition record (name description treatment prevention : string)
  : string * json :=
  (name, JObj [("description", JStr description);
               ("treatment", JStr treatment);
               ("prevention", JStr prevention)]).

Definition get_default_treatments : json :=
  JObj [
    record "Tomato Bacterial Spot"
      "Bacterial spot is a common disease of tomato caused by Xanthomonas vesicatoria"
      "Apply copper-based fungicides, improve air circulation, avoid overhead watering, remove infected plant debris"
      "Use disease-free seeds, practice crop rotation, maintain proper spacing between plants";
    record "Tomato Early Blight"
      "Early blight is caused by the fungus Alternaria solani"
      "Apply fungicides containing chlorothalonil or copper, remove infected leaves, improve air circulation"
      "Mulch around plants, avoid overhead watering, practice crop rotation";
    record "Tomato Late Blight"
      "Late blight is caused by the oomycete Phytophthora infestans"
      "Apply fungicides containing chlorothalonil or copper, remove infected plants immediately"
      "Avoid overhead watering, ensure good drainage, practice crop rotation";
    record "Tomato Leaf Mold"
      "Leaf mold is caused by the fungus Passalora fulva"
      "Apply fungicides, improve air circulation, reduce humidity"
      "Use resistant varieties, maintain proper spacing, avoid overhead watering";
    record "Tomato Septoria Leaf Spot"
      "Septoria leaf spot is caused by the fungus Septoria lycopersici"
      "Apply fungicides containing chlorothalonil, remove infected leaves"
      "Practice crop rotation, avoid overhead watering, maintain clean garden";
    record "Tomato Spider Mites"
      "Spider mites are tiny arachnids that feed on plant sap"
      "Apply insecticidal soap or neem oil, increase humidity, remove heavily infested leaves"
      "Regular monitoring, maintain proper humidity, avoid over-fertilization";
    record "Tomato Target Spot"
      "Target spot is caused by the fungus Corynespora cassiicola"
      "Apply fungicides, improve air circulation, remove infected leaves"
      "Practice crop rotation, maintain proper spacing, avoid overhead watering";
    record "Tomato Yellow Leaf Curl Virus"
      "Yellow leaf curl virus is transmitted by whiteflies"
      "Control whitefly populations, remove infected plants, apply systemic insecticides"
      "Use resistant varieties, control weeds, monitor for whiteflies";
    record "Tomato Mosaic Virus"
      "Mosaic virus is transmitted by aphids and mechanical means"
      "Remove infected plants, control aphid populations, disinfect tools"
      "Use disease-free seeds, control aphids, practice good hygiene";
    record "Tomato Healthy"
      "The tomato plant appears healthy with no visible disease symptoms"
      "Continue current care practices, monitor regularly for any changes"
      "Maintain proper watering, fertilization, and pest management";
    record "Potato Early Blight"
      "Early blight in potatoes is caused by Alternaria solani"
      "Apply fungicides containing chlorothalonil, remove infected foliage"
      "Practice crop rotation, maintain proper spacing, avoid overhead watering";
    record "Potato Late Blight"
      "Late blight in potatoes is caused by Phytophthora infestans"
      "Apply fungicides containing chlorothalonil or copper, remove infected plants"
      "Avoid overhead watering, ensure good drainage, practice crop rotation";
    record "Potato Healthy"
      "The potato plant appears healthy with no visible disease symptoms"
      "Continue current care practices, monitor regularly for any changes"
      "Maintain proper watering, fertilization, and pest management";
    record "Corn Northern Leaf Blight"
      "Northern leaf blight is caused by the fungus Exserohilum turcicum"
      "Apply fungicides containing azoxystrobin or propiconazole"
      "Use resistant varieties, practice crop rotation, maintain proper spacing";
    record "Corn Common Rust"
      "Common rust is caused by the fungus Puccinia sorghi"
      "Apply fungicides containing azoxystrobin or propiconazole"
      "Use resistant varieties, practice crop rotation, avoid overhead watering";
    record "Corn Gray Leaf Spot"
      "Gray leaf spot is caused by the fungus Cercospora zeae-maydis"
      "Apply fungicides containing azoxystrobin or propiconazole"
      "Use resistant varieties, practice crop rotation, maintain proper spacing";
    record "Corn Healthy"
      "The corn plant appears healthy with no visible disease symptoms"
      "Continue current care practices, monitor regularly for any changes"
      "Maintain proper watering, fertilization, and pest management"
  ].

Definition load_body (kb : knowledge_base) : result json :=
  match comprehensive kb with
  | Present loaded =>
      comprehensive_data <- loaded ;;
      flatten_disease_database comprehensive_data
  | Absent =>
      match flat kb with
      | Present loaded => loaded
      | Absent => Ok get_default_treatments
      end
  end.

(** The handler of the single [try] prints the error and returns the
    default table. *)
Definition load_treatments_database (kb : knowledge_base) : result json :=
  try_except (load_body kb) (fun _ => Ok get_default_treatments).

Definition miss_message (disease_name : string) : string :=
  "No specific treatment information available for " ++ disease_name ++
  ". Please consult with a local agricultural extension service or plant pathologist for proper diagnosis and treatment recommendations.".

Section Lookup.

(** [str(v)] for a JSON value that is not a string. *)
Variable py_str_other : json -> string.

(** What an f-string field [{v}] prints. *)
Definition fmt (v : json) : string :=
  match v with
  | JStr s => s
  | _ => py_str_other v
  end.

Definition compose (description treatment prevention : string) : string :=
  description ++ nl ++ nl ++ "Treatment: " ++ treatment ++
  nl ++ nl ++ "Prevention: " ++ prevention.

Definition get_treatment_suggestion (kb : knowledge_base)
  (disease_name : string) : result string :=
  treatments_db <- load_treatments_database kb ;;
  present <- contains disease_name treatments_db ;;
  if present then
    disease_info <- getitem treatments_db disease_name ;;
    description <- getitem disease_info "description" ;;
    treatment <- getitem disease_info "treatment" ;;
    prevention <- getitem disease_info "prevention" ;;
    Ok (compose (fmt description) (fmt treatment) (fmt prevention))
  else
    Ok (miss_message disease_name).

End Lookup.

End Treatments.

(** ** model_utils.py *)

Module ModelUtils.

Inductive dtype : Type :=
  bool_ | uint8 | uint16 | int16 | uint32 | int32 | float32.

(** A decoded PIL image: mode, size as (width, height), and the band
    samples in row-major order. *)
Record image : Type := {
  mode : string;
  size : nat * nat;
  samples : list Q
}.

(** Pillow's mode descriptors: element type of the array interface and
    number of bands ([None] for a single band, which gives a
    two-dimensional array). *)
Definition mode_table : list (string * (dtype * option nat)) :=
  [("1", (bool_, None)); ("L", (uint8, None)); ("P", (uint8, None));
   ("I", (int32, None)); ("F", (float32, None));
   ("RGB", (uint8, Some 3)); ("YCbCr", (uint8, Some 3));
   ("LAB", (uint8, Some 3)); ("HSV", (uint8, Some 3));
   ("RGBX", (uint8, Some 4)); ("RGBA", (uint8, Some 4));
   ("CMYK", (uint8, Some 4)); ("RGBa", (uint8, Some 4));
   ("LA", (uint8, Some 2)); ("La", (uint8, Some 2)); ("PA", (uint8, Some 2));
   ("BGR;15", (uint8, Some 3)); ("BGR;16", (uint8, Some 3));
   ("BGR;24", (uint8, Some 3));
   ("I;16", (uint16, None)); ("I;16L", (uint16, None));
   ("I;16B", (uint16, None)); ("I;16N", (uint16, None));
   ("I;16S", (int16, None)); ("I;16LS", (int16, None));
   ("I;16BS", (int16, None)); ("I;16NS", (int16, None));
   ("I;32", (uint32, None)); ("I;32L", (uint32, None));
   ("I;32B", (uint32, None));
   ("I;32S", (int32, None)); ("I;32LS", (int32, None));
   ("I;32BS", (int32, None))].

Fixpoint mode_lookup (m : string)
  (table : list (string * (dtype * option nat)))
  : option (dtype * option nat) :=
  match table with
  | [] => None
  | (name, conv) :: rest =>
      if String.eqb m name then Some conv else mode_lookup m rest
  end.

(** The mode is one Pillow defines; no image carries any other. *)
Definition known_mode (m : string) : bool :=
  match mode_lookup m mode_table with Some _ => true | None => false end.

Definition mode_conv (m : string) : dtype * option nat :=
  match mode_lookup m mode_table with
  | Some conv => conv
  | None => (int32, None)
  end.

Definition bands (m : string) : nat :=
  match snd (mode_conv m) with
  | Some n => n
  | None => 1
  end.

Definition in_range (lo hi : Q) (v : Q) : Prop := (lo <= v /\ v <= hi)%Q.

(** A decoded image has one of Pillow's modes and holds one sample per
    pixel and band; samples of the eight-bit modes lie in 0..255 and
    bilevel samples in 0..1. *)
Definition valid_image (img : image) : Prop :=
  length (samples img) = (fst (size img) * snd (size img) * bands (mode img))%nat /\
  (fst (mode_conv (mode img)) = uint8 -> Forall (in_range 0%Q 255%Q) (samples img)) /\
  (fst (mode_conv (mode img)) = bool_ -> Forall (in_range 0%Q 1%Q) (samples img)) /\
  known_mode (mode img) = true.

Record ndarray : Type := {
  shape : list nat;
  elem : dtype;
  values : list Q
}.

(** [np.array(image)] *)
Definition np_array (img : image) : ndarray :=
  let '(width, height) := size img in
  {| shape := match snd (mode_conv (mode img)) with
              | Some n => [height; width; n]
              | None => [height; width]
              end;
     elem := fst (mode_conv (mode img));
     values := samples img |}.

Definition astype (a : ndarray) (t : dtype) : ndarray :=
  {| shape := shape a; elem := t; values := values a |}.

(** [a / d] for a float32 array and a Python float *)
Definition true_divide (a : ndarray) (d : Q) : ndarray :=
  {| shape := shape a; elem := elem a;
     values := map (fun v => (v / d)%Q) (values a) |}.

(** [np.expand_dims(a, axis=0)] *)
Definition expand_dims0 (a : ndarray) : ndarray :=
  {| shape := 1%nat :: shape a; elem := elem a; values := values a |}.

Fixpoint shape_eqb (s1 s2 : list nat) : bool :=
  match s1, s2 with
  | [], [] => true
  | a :: t1, b :: t2 => Nat.eqb a b && shape_eqb t1 t2
  | _, _ => false
  end.

Record keras_model : Type := {
  predict : ndarray -> result (list (list Q))
}.

Section Library.

(** [Image.resize] with the default resampling filter. *)
Variable resize : image -> nat * nat -> result image.

(** The untrained
    [Input(224,224,3) -> GlobalAveragePooling2D -> Dense(85, softmax)]
    network: the activation of output unit [j] for batch element [b] of
    input [x] (the weights are drawn at random when the model is built). *)
Variable dummy_unit : ndarray -> nat -> nat -> Q.

Variable path_exists : string -> bool.
Variable keras_load_model : string -> result keras_model.

Definition preprocess_image (img : image) (target_size : nat * nat)
  : result ndarray :=
  try_except
    (img <- resize img target_size ;;
     let image_array := np_array img in
     let image_array := true_divide (astype image_array float32) 255%Q in
     let image_array := expand_dims0 image_array in
     Ok image_array)
    (fun e => Raise e).

Definition dummy_units : nat := 85.

Definition create_dummy_model : keras_model :=
  {| predict := fun x =>
       if shape_eqb (tl (shape x)) [224; 224; 3]
       then Ok (map (fun b => map (dummy_unit x b) (seq 0 dummy_units))
                    (seq 0 (hd 0 (shape x))))
       else Raise (ValueError "input is incompatible with the layer") |}.

Definition load_model (model_path : string) : result keras_model :=
  try_except
    (if negb (path_exists model_path) then Ok create_dummy_model
     else
       model <- keras_load_model model_path ;;
       Ok model)
    (fun _ => Ok create_dummy_model).

End Library.

End ModelUtils.

(** ** main.py *)

Module Main.

Import Treatments ModelUtils.

(** What a request does, in order: calls to collaborators and the
    [raise HTTPException] statements of the handler. *)
Inductive event : Type :=
| ReadUpload
| OpenImage
| ConvertImage
| PreprocessImage
| Predict
| TreatmentLookup (disease_name : string)
| RaiseHTTP (status_code : Z) (detail : string).

(** An effectful computation: its outcome and the events it emitted. *)
Definition io (A : Type) : Type := result A * list event.

Definition ret {A} (a : A) : io A := (Ok a, []).

Definition iobind {A B} (m : io A) (k : A -> io B) : io B :=
  match m with
  | (Ok a, l1) => let '(r, l2) := k a in (r, (l1 ++ l2)%list)
  | (Raise e, l1) => (Raise e, l1)
  end.

Definition lift {A} (r : result A) : io A := (r, []).

Definition call {A} (ev : event) (r : result A) : io A := (r, [ev]).

Definition raise_http {A} (status_code : Z) (detail : string) : io A :=
  (Raise (HTTPException status_code detail), [RaiseHTTP status_code detail]).

Definition io_try_except {A} (body : io A) (handler : exn -> io A) : io A :=
  match body with
  | (Ok a, l1) => (Ok a, l1)
  | (Raise e, l1) => let '(r, l2) := handler e in (r, (l1 ++ l2)%list)
  end.

Notation "x <~ c1 ;; c2" := (iobind c1 (fun x => c2))
  (at level 61, c1 at next level, right associativity).

Record upload_file : Type := {
  content_type : option string;
  file_data : list Byte.byte
}.

Record response : Type := {
  disease_name : string;
  confidence_score : Q;
  treatment_suggestion : string
}.

Definition disease_names : list string :=
  [
    "Wheat Rust"; "Wheat Blast"; "Wheat Scab"; "Wheat Healthy"; "Rice Blast";
    "Rice Brown Spot"; "Rice Bacterial Blight"; "Rice Healthy";
    "Corn Northern Leaf Blight"; "Corn Common Rust"; "Corn Gray Leaf Spot";
    "Corn Southern Rust"; "Corn Healthy"; "Barley Scald"; "Barley Net Blotch";
    "Barley Healthy"; "Tomato Bacterial Spot"; "Tomato Early Blight";
    "Tomato Late Blight"; "Tomato Leaf Mold"; "Tomato Septoria Leaf Spot";
    "Tomato Spider Mites"; "Tomato Target Spot";
    "Tomato Yellow Leaf Curl Virus"; "Tomato Mosaic Virus"; "Tomato Healthy";
    "Potato Early Blight"; "Potato Late Blight"; "Potato Scab";
    "Potato Blackleg"; "Potato Healthy"; "Pepper Bacterial Spot";
    "Pepper Anthracnose"; "Pepper Healthy"; "Cucumber Downy Mildew";
    "Cucumber Powdery Mildew"; "Cucumber Anthracnose"; "Cucumber Healthy";
    "Lettuce Downy Mildew"; "Lettuce Bacterial Soft Rot"; "Lettuce Healthy";
    "Carrot Leaf Blight"; "Carrot Root Rot"; "Carrot Healthy"; "Apple Scab";
    "Apple Fire Blight"; "Apple Powdery Mildew"; "Apple Healthy";
    "Citrus Canker"; "Citrus Greening"; "Citrus Melanose"; "Citrus Healthy";
    "Grape Downy Mildew"; "Grape Powdery Mildew"; "Grape Black Rot";
    "Grape Healthy"; "Strawberry Powdery Mildew"; "Strawberry Gray Mold";
    "Strawberry Anthracnose"; "Strawberry Healthy"; "Soybean Rust";
    "Soybean Bacterial Blight"; "Soybean Healthy"; "Bean Anthracnose";
    "Bean Rust"; "Bean Healthy"; "Sweet Potato Scab"; "Sweet Potato Healthy";
    "Cassava Mosaic Disease"; "Cassava Brown Streak Disease";
    "Cassava Healthy"
  ].

Definition Qgtb (x y : Q) : bool := negb (Qle_bool x y).

(** [np.argmax]: index of the first occurrence of the maximum. *)
Fixpoint argmax_from (best_i : nat) (best : Q) (i : nat) (l : list Q) : nat :=
  match l with
  | [] => best_i
  | x :: t =>
      if Qgtb x best then argmax_from i x (S i) t
      else argmax_from best_i best (S i) t
  end.

Definition np_argmax (l : list Q) : result nat :=
  match l with
  | [] => Raise (ValueError "attempt to get argmax of an empty sequence")
  | x :: t => Ok (argmax_from 0 x 1 t)
  end.

(** [predictions[0]] *)
Definition first_row (predictions : list (list Q)) : result (list Q) :=
  match predictions with
  | [] => Raise (IndexError "index 0 is out of bounds for axis 0 with size 0")
  | row :: _ => Ok row
  end.

(** Rounding to the nearest integer, ties to even. *)
Definition round_half_even (q : Q) : Z :=
  let f := Qfloor q in
  match ((q - inject_Z f) ?= (1 # 2))%Q with
  | Lt => f
  | Gt => (f + 1)%Z
  | Eq => if Z.even f then f else (f + 1)%Z
  end.

(** [round(q, ndigits)] on a float: the exact value rounded half-even at
    [ndigits] decimals, in lowest terms. *)
Definition py_round (q : Q) (ndigits : nat) : Q :=
  let scale := inject_Z (10 ^ Z.of_nat ndigits) in
  Qred (inject_Z (round_half_even (q * scale)) / scale).

Definition status_of (r : result response) : Z :=
  match r with
  | Ok _ => 200%Z
  | Raise (HTTPException s _) => s
  | Raise _ => 500%Z
  end.

Section Service.

Variable py_str_other : json -> string.
Variable image_open : list Byte.byte -> result image.
Variable convert : image -> string -> result image.
Variable resize : image -> nat * nat -> result image.
Variable dummy_unit : ndarray -> nat -> nat -> Q.
Variable path_exists : string -> bool.
Variable keras_load_model : string -> result keras_model.
Variable backend_dir : string.

(** [os.path.join(os.path.dirname(__file__), "..", "models", "model.h5")] *)
Definition model_path : string := backend_dir ++ "/../models/model.h5".

(** The startup hook: the new value of the global [model]. *)
Definition load_model_on_startup (model : option keras_model)
  : result (option keras_model) :=
  try_except
    (m <- load_model dummy_unit path_exists keras_load_model model_path ;;
     Ok (Some m))
    (fun e => Raise e).


Definition label_of (class_index : nat) : string :=
  if (class_index <? length disease_names)%nat
  then nth class_index disease_names ""
  else "Unknown Disease".

(** The body of the handler's [try]. Reading the upload is taken to
    succeed; building the JSON response from the result is not modelled. *)
Definition predict_body (file : upload_file) (model : option keras_model)
  (kb : knowledge_base) : io response :=
  ctype <~ lift (match content_type file with
                 | Some s => Ok s
                 | None => Raise (AttributeError
                     "'NoneType' object has no attribute 'startswith'")
                 end) ;;
  _ <~ (if negb (String.prefix "image/" ctype)
        then raise_http 400%Z "File must be an image"
        else ret tt) ;;
  image_data <~ call ReadUpload (Ok (file_data file)) ;;
  img <~ call OpenImage (image_open image_data) ;;
  img <~ (if negb (String.eqb (mode img) "RGB")
          then call ConvertImage (convert img "RGB")
          else ret img) ;;
  processed_image <~ call PreprocessImage
                       (preprocess_image resize img (224, 224)%nat) ;;
  m <~ (match model with
        | None => raise_http 500%Z "Model not loaded"
        | Some m => ret m
        end) ;;
  predictions <~ call Predict (predict m processed_image) ;;
  row <~ lift (first_row predictions) ;;
  class_index <~ lift (np_argmax row) ;;
  let confidence := nth class_index row 0%Q in
  let name := label_of class_index in
  treatment <~ call (TreatmentLookup name)
                 (get_treatment_suggestion py_str_other kb name) ;;
  ret {| disease_name := name;
         confidence_score := py_round (confidence * 100)%Q 2;
         treatment_suggestion := treatment |}.

Definition predict_disease (file : upload_file) (model : option keras_model)
  (kb : knowledge_base) : io response :=
  io_try_except (predict_body file model kb)
    (fun e => raise_http 500%Z ("Prediction failed: " ++ str_exn e)).

End Service.

End Main.

(** ** Concrete inputs used by the examples *)

Module Examples.

Import Treatments ModelUtils Main.

(** The examples only print string fields, so the text of other values is
    never consulted. *)
Definition py_str_plain (v : json) : string :=
  match v with
  | JNull => "None"
  | JBool true => "True"
  | JBool false => "False"
  | JNum lit => lit
  | _ => "..."
  end.

Definition tiny_catalog : json :=
  JObj [record "Tomato Healthy" "Looks fine" "Keep going" "Water well"].

(** Both files exist; the hierarchical one is corrupt. *)
Definition kb_corrupt_hierarchy : knowledge_base :=
  {| comprehensive := Present (Raise (JSONDecodeError "Expecting value: line 1 column 1 (char 0)"));
     flat := Present (Ok tiny_catalog) |}.

Definition kb_flat_only : knowledge_base :=
  {| comprehensive := Absent; flat := Present (Ok tiny_catalog) |}.

Definition kb_none : knowledge_base :=
  {| comprehensive := Absent; flat := Absent |}.

(** A flat catalog whose record lacks its treatment and prevention. *)
Definition kb_incomplete : knowledge_base :=
  {| comprehensive := Absent;
     flat := Present (Ok (JObj [("Tomato Healthy",
                                 JObj [("description", JStr "Looks fine")])])) |}.

Definition tiny_hierarchy : json :=
  JObj [("VEGETABLES", JObj [("Tomato", tiny_catalog)])].

(** A resampler that paints the target with the first sample. *)
Definition resize_fill (img : image) (target : nat * nat) : result image :=
  Ok {| mode := mode img;
        size := target;
        samples := repeat (hd 0%Q (samples img))
                          (fst target * snd target * bands (mode img)) |}.

(** One grey pixel. *)
Definition gray_pixel : image :=
  {| mode := "L"; size := (1, 1); samples := [128%Q] |}.

(** One red pixel. *)
Definition red_pixel : image :=
  {| mode := "RGB"; size := (1, 1); samples := [255%Q; 0%Q; 0%Q] |}.

(** An untrained network whose unit 71 happens to be the most active. *)
Definition peaked_unit (x : ndarray) (b j : nat) : Q :=
  if Nat.eqb j 71 then (16 # 100)%Q else (1 # 100)%Q.

(** A classifier that always answers with the same row. *)
Definition constant_model (row : list Q) : keras_model :=
  {| predict := fun _ => Ok [row] |}.

Definition open_red (data : list Byte.byte) : result image := Ok red_pixel.

Definition open_gray (data : list Byte.byte) : result image := Ok gray_pixel.

Definition convert_fill (img : image) (m : string) : result image :=
  if known_mode m
  then Ok {| mode := m;
             size := size img;
             samples := repeat 0%Q (fst (size img) * snd (size img) * bands m) |}
  else Raise (ValueError "conversion not supported").

Definition text_upload : upload_file :=
  {| content_type := Some "text/plain"; file_data := [] |}.

Definition jpeg_upload : upload_file :=
  {| content_type := Some "image/jpeg"; file_data := [] |}.

Definition no_file (path : string) : bool := false.

Definition no_loader (path : string) : result keras_model :=
  Raise (OSError "No file or directory found").

End Examples.

(** ** Contracts of the library calls *)

Module Contracts.

Import Treatments ModelUtils Main.

(** What the code relies on from [Image.resize]: whenever it returns, on
    a decoded image, the result is a decoded image of the requested size
    in the same mode. Nothing is assumed about when it returns. *)
Definition resize_spec (resize : image -> nat * nat -> result image) : Prop :=
  forall img target img',
    valid_image img ->
    resize img target = Ok img' ->
    mode img' = mode img /\
    size img' = target /\
    valid_image img'.

(** The request passes validation, decodes, is preprocessed, and the
    loaded classifier answers with [row] as its first row. *)
Definition classified
  (image_open : list Byte.byte -> result image)
  (convert : image -> string -> result image)
  (resize : image -> nat * nat -> result image)
  (file : upload_file) (model : option keras_model) (row : list Q) : Prop :=
  exists ctype img rgb tensor m rest,
    content_type file = Some ctype /\
    String.prefix "image/" ctype = true /\
    image_open (file_data file) = Ok img /\
    (if negb (String.eqb (mode img) "RGB") then convert img "RGB" else Ok img)
      = Ok rgb /\
    preprocess_image resize rgb (224, 224) = Ok tensor /\
    model = Some m /\
    predict m tensor = Ok (row :: rest).


End Contracts.

(** ** Typed views used to state properties *)

Module Views.

Import Treatments ModelUtils Main.

(** A hierarchical source with all three levels present:
    category -> crop -> disease name -> record. *)
Definition crop_table : Type := list (string * dict).
Definition hierarchy : Type := list (string * crop_table).

Definition json_of_crops (crops : crop_table) : json :=
  JObj (map (fun crop => (fst crop, JObj (snd crop))) crops).

Definition json_of_hierarchy (h : hierarchy) : json :=
  JObj (map (fun cat => (fst cat, json_of_crops (snd cat))) h).

(** Every (disease name, record) pair of the source, in iteration order. *)
Definition disease_entries (h : hierarchy) : dict :=
  concat (map (fun cat => concat (map snd (snd cat))) h).

(** The record bound to [name] by the last entry that mentions it. *)
Definition last_binding (name : string) (entries : dict) : option json :=
  dict_get name (List.rev entries).

Definition is_object (x : json) : bool :=
  match x with JObj _ => true | _ => false end.

Definition members_of (x : json) : dict :=
  match x with JObj m => m | _ => [] end.

(** The disease entries of a JSON document read as a hierarchy. *)
Definition entries_of (x : json) : dict :=
  concat (map (fun cat => concat (map (fun crop => members_of (snd crop))
                                      (members_of (snd cat))))
              (members_of x)).

(** The value of a category is an object whose values are objects. *)
Definition crops_ok (cat : string * json) : bool :=
  match snd cat with
  | JObj crops => forallb (fun crop => is_object (snd crop)) crops
  | _ => false
  end.

(** An object of objects of objects. *)
Definition three_level (x : json) : bool :=
  match x with
  | JObj cats => forallb crops_ok cats
  | _ => false
  end.

Definition complete_record (info : json) : bool :=
  match info with
  | JObj r => dict_mem "description" r && dict_mem "treatment" r
              && dict_mem "prevention" r
  | _ => false
  end.

Definition complete_catalog (m : dict) : bool :=
  forallb (fun entry => complete_record (snd entry)) m.

(** What the handler relies on from [Image.convert]: whenever it returns,
    on a decoded image, the result is a decoded image of the same size in
    the requested mode. Nothing is assumed about when it returns. *)
Definition convert_spec (convert : image -> string -> result image) : Prop :=
  forall img m img',
    valid_image img ->
    convert img m = Ok img' ->
    mode img' = m /\
    size img' = size img /\
    valid_image img'.

(** Position of a collaborator call in the pipeline; raises have none. *)
Definition stage (ev : event) : option nat :=
  match ev with
  | ReadUpload => Some 1
  | OpenImage => Some 2
  | ConvertImage => Some 3
  | PreprocessImage => Some 4
  | Predict => Some 5
  | TreatmentLookup _ => Some 6
  | RaiseHTTP _ _ => None
  end.

Fixpoint stages (trace : list event) : list nat :=
  match trace with
  | [] => []
  | ev :: t =>
      match stage ev with
      | Some n => n :: stages t
      | None => stages t
      end
  end.

Definition is_raise (ev : event) : bool :=
  match ev with RaiseHTTP _ _ => true | _ => false end.

Definition validated (file : upload_file) : bool :=
  match content_type file with
  | Some ctype => String.prefix "image/" ctype
  | None => false
  end.

End Views.

(** ** Further concrete inputs *)

Module MoreExamples.

Import Treatments ModelUtils Main Examples Views.

(** The same disease name under two crops. *)
Definition dup_hierarchy : hierarchy :=
  [("VEGETABLES",
    [("Tomato", [record "Leaf Spot" "On tomato" "Prune" "Rotate"]);
     ("Potato", [record "Leaf Spot" "On potato" "Spray" "Drain";
                 record "Scab" "Rough skin" "Lime" "Clean seed"])])].

Definition kb_dup : knowledge_base :=
  {| comprehensive := Present (Ok (json_of_hierarchy dup_hierarchy));
     flat := Absent |}.

(** A flat catalog stored under the hierarchical file name. *)
Definition kb_flat_in_wrong_file : knowledge_base :=
  {| comprehensive := Present (Ok tiny_catalog);
     flat := Present (Ok tiny_catalog) |}.

(** A flat file that holds a list of names instead of a mapping. *)
Definition kb_list : knowledge_base :=
  {| comprehensive := Absent;
     flat := Present (Ok (JArr [JStr "Tomato Healthy"])) |}.

(** A resampler that always fails. *)
Definition resize_fails (img : image) (target : nat * nat) : result image :=
  Raise (LibraryError "height and width must be > 0").

(** A decoder that rejects every upload. *)
Definition open_fails (data : list Byte.byte) : result image :=
  Raise (LibraryError "cannot identify image file").

(** A flat file that holds the JSON value null. *)
Definition kb_null : knowledge_base :=
  {| comprehensive := Absent; flat := Present (Ok JNull) |}.

(** A flat file whose record for the first label lacks two fields. *)
Definition kb_wheat_incomplete : knowledge_base :=
  {| comprehensive := Absent;
     flat := Present (Ok (JObj [("Wheat Rust",
                                 JObj [("description", JStr "Orange pustules")])])) |}.

(** A row of 85 probabilities whose largest entry is at index 71. *)
Definition peaked_row : list Q :=
  map (fun j => if Nat.eqb j 71 then (16 # 100)%Q else (1 # 100)%Q) (seq 0 85).

(** A resampler that refuses an empty target, as Pillow does. *)
Definition resize_positive (img : image) (target : nat * nat) : result image :=
  if (Nat.eqb (fst target) 0 || Nat.eqb (snd target) 0)%bool
  then Raise (ValueError "height and width must be > 0")
  else resize_fill img target.

End MoreExamples.

(** * Properties of the treatment catalog *)

Module CatalogProps.

Import Treatments Examples.

Lemma string_app_assoc (a b c : string) : (a ++ b) ++ c = a ++ (b ++ c).
Proof. induction a as [|x a IH]; simpl; [reflexivity|now rewrite IH]. Qed.

Lemma dict_set_fresh k v (d : dict) :
  ~ In k (keys d) -> dict_set k v d = (d ++ [(k, v)])%list.
Proof.
  induction d as [|[k' v'] t IH]; simpl; intros Hk.
  - reflexivity.
  - destruct (String.eqb_spec k k') as [->|Hne].
    + exfalso. apply Hk. now left.
    + rewrite IH; [reflexivity|]. intros Hin. apply Hk. now right.
Qed.

(** Copying entries with distinct, unused names appends them in order. *)
Lemma copy_entries_fresh (m acc : dict) :
  NoDup (keys m) ->
  (forall k, In k (keys m) -> ~ In k (keys acc)) ->
  for_each (fun a (d : string * json) => Ok (dict_set (fst d) (snd d) a)) acc m
  = Ok (acc ++ m)%list.
Proof.
  revert acc. induction m as [|[k v] t IH]; simpl; intros acc Hnd Hfresh.
  - now rewrite app_nil_r.
  - inversion Hnd as [|? ? Hk Hnd']; subst.
    rewrite dict_set_fresh by (apply Hfresh; now left).
    rewrite IH; trivial.
    + now rewrite <- app_assoc.
    + intros k' Hin Hacc. unfold keys in Hacc.
      rewrite map_app in Hacc. apply in_app_or in Hacc.
      destruct Hacc as [Hacc|[<-|[]]].
      * apply (Hfresh k'); [now right|exact Hacc].
      * exact (Hk Hin).
Qed.

Lemma load_returns kb : returns (load_treatments_database kb).
Proof.
  unfold returns, load_treatments_database, try_except.
  destruct (load_body kb); eauto.
Qed.

(** C1, as stated, fails: with a corrupt hierarchical file and a good flat
    file the load does not behave as if the hierarchical file were
    missing; it returns the default table, not the flat catalog. *)
Lemma corrupt_hierarchy_skips_flat :
  load_treatments_database kb_corrupt_hierarchy = Ok get_default_treatments /\
  load_treatments_database kb_flat_only = Ok tiny_catalog /\
  load_treatments_database kb_corrupt_hierarchy
    <> load_treatments_database kb_flat_only.
Proof.
  repeat split; try reflexivity.
  vm_compute. discriminate.
Qed.

(** C1 (amended): the load never fails; a missing hierarchical file falls
    through to the flat file; a failure while reading or flattening the
    hierarchical file, and a missing or failing flat file, give the
    default table. *)
Theorem load_fallback_chain (kb : knowledge_base) :
  returns (load_treatments_database kb) /\
  (forall e, comprehensive kb = Present (Raise e) ->
     load_treatments_database kb = Ok get_default_treatments) /\
  (forall d, comprehensive kb = Present (Ok d) ->
     load_treatments_database kb =
     try_except (flatten_disease_database d)
                (fun _ => Ok get_default_treatments)) /\
  (forall c, comprehensive kb = Absent -> flat kb = Present (Ok c) ->
     load_treatments_database kb = Ok c) /\
  (forall e, comprehensive kb = Absent -> flat kb = Present (Raise e) ->
     load_treatments_database kb = Ok get_default_treatments) /\
  (comprehensive kb = Absent -> flat kb = Absent ->
     load_treatments_database kb = Ok get_default_treatments).
Proof.
  split; [apply load_returns|].
  unfold load_treatments_database, load_body.
  repeat split; intros; repeat
    match goal with H : _ = _ |- _ => rewrite H; clear H end;
    reflexivity.
Qed.

Lemma load_fallback_chain_witness :
  load_treatments_database kb_corrupt_hierarchy = Ok get_default_treatments /\
  load_treatments_database kb_flat_only = Ok tiny_catalog /\
  load_treatments_database kb_none = Ok get_default_treatments.
Proof.
  split; [|split].
  - destruct (load_fallback_chain kb_corrupt_hierarchy) as (_ & H & _).
    apply (H (JSONDecodeError "Expecting value: line 1 column 1 (char 0)")).
    reflexivity.
  - destruct (load_fallback_chain kb_flat_only) as (_ & _ & _ & H & _).
    apply H; reflexivity.
  - destruct (load_fallback_chain kb_none) as (_ & _ & _ & _ & _ & H).
    apply H; reflexivity.
Defined.

Section Lookup.

Variable py_str_other : json -> string.

Local Abbreviation lookup := (get_treatment_suggestion py_str_other).
Local Abbreviation show := (fmt py_str_other).

(** On a catalog that is a JSON object, lookup is a dictionary read
    followed by three field reads. *)
Lemma lookup_on_object (kb : knowledge_base) (name : string) (m : dict) :
  load_treatments_database kb = Ok (JObj m) ->
  lookup kb name =
  match dict_get name m with
  | None => Ok (miss_message name)
  | Some info =>
      d <- getitem info "description" ;;
      t <- getitem info "treatment" ;;
      p <- getitem info "prevention" ;;
      Ok (compose (show d) (show t) (show p))
  end.
Proof.
  intros Hload. unfold get_treatment_suggestion. rewrite Hload.
  cbn [bind contains getitem]. unfold dict_mem.
  destruct (dict_get name m); reflexivity.
Qed.

(** C3 (amended): on a catalog that is a JSON object, lookup returns the
    miss message for an absent name and the composed message for a record
    with all three fields; a record lacking a field is not treated as
    absent: lookup raises [KeyError] for the first missing field, and an
    entry that is not an object raises. *)
Theorem lookup_outcomes (kb : knowledge_base) (name : string) (m : dict) :
  load_treatments_database kb = Ok (JObj m) ->
  match dict_get name m with
  | None => lookup kb name = Ok (miss_message name)
  | Some (JObj r) =>
      match dict_get "description" r, dict_get "treatment" r,
            dict_get "prevention" r with
      | Some d, Some t, Some p =>
          lookup kb name = Ok (compose (show d) (show t) (show p))
      | None, _, _ => lookup kb name = Raise (KeyError "description")
      | Some _, None, _ => lookup kb name = Raise (KeyError "treatment")
      | Some _, Some _, None => lookup kb name = Raise (KeyError "prevention")
      end
  | Some _ => raises (lookup kb name)
  end.
Proof.
  intros Hload. rewrite (lookup_on_object kb name Hload).
  destruct (dict_get name m) as [info|]; [|reflexivity].
  destruct info; cbn [bind getitem]; try (eexists; reflexivity).
  destruct (dict_get "description" members) as [d|]; [|reflexivity].
  destruct (dict_get "treatment" members) as [t|]; [|reflexivity].
  destruct (dict_get "prevention" members) as [p|]; reflexivity.
Qed.

(** C8: a hit on a record with all three fields returns exactly
    "{description}\n\nTreatment: {treatment}\n\nPrevention: {prevention}",
    which contains "Treatment:" and "Prevention:". *)
Theorem lookup_hit_format (kb : knowledge_base) (name : string)
  (m r : dict) (d t p : json) :
  load_treatments_database kb = Ok (JObj m) ->
  dict_get name m = Some (JObj r) ->
  dict_get "description" r = Some d ->
  dict_get "treatment" r = Some t ->
  dict_get "prevention" r = Some p ->
  let message := show d ++ nl ++ nl ++ "Treatment: " ++ show t ++
                 nl ++ nl ++ "Prevention: " ++ show p in
  lookup kb name = Ok message /\
  has_substring "Treatment:" message /\
  has_substring "Prevention:" message.
Proof.
  intros Hload Hname Hd Ht Hp message.
  split; [|split].
  - rewrite (lookup_on_object kb name Hload), Hname.
    cbn [bind getitem]. now rewrite Hd, Ht, Hp.
  - exists (show d ++ nl ++ nl), (" " ++ show t ++ nl ++ nl ++ "Prevention: " ++ show p).
    unfold message. now rewrite !string_app_assoc.
  - exists (show d ++ nl ++ nl ++ "Treatment: " ++ show t ++ nl ++ nl),
           (" " ++ show p).
    unfold message. now rewrite !string_app_assoc.
Qed.

End Lookup.

(** C3, as stated, fails: a record without its treatment field is not
    treated as absent; lookup raises instead of returning a string. *)
Lemma incomplete_record_raises :
  get_treatment_suggestion py_str_plain kb_incomplete "Tomato Healthy"
    = Raise (KeyError "treatment") /\
  ~ returns (get_treatment_suggestion py_str_plain kb_incomplete "Tomato Healthy").
Proof.
  split; [reflexivity|]. intros [s Hs]. vm_compute in Hs. discriminate.
Qed.

Lemma lookup_outcomes_witness :
  load_treatments_database kb_flat_only = Ok tiny_catalog /\
  get_treatment_suggestion py_str_plain kb_flat_only "Tomato Healthy"
    = Ok (compose "Looks fine" "Keep going" "Water well") /\
  get_treatment_suggestion py_str_plain kb_flat_only "Wheat Rust"
    = Ok (miss_message "Wheat Rust").
Proof.
  split; [reflexivity|]. split.
  - exact (lookup_outcomes py_str_plain kb_flat_only "Tomato Healthy" eq_refl).
  - exact (lookup_outcomes py_str_plain kb_flat_only "Wheat Rust" eq_refl).
Defined.

Lemma lookup_hit_format_witness :
  get_treatment_suggestion py_str_plain kb_none "Tomato Healthy"
    = Ok ("The tomato plant appears healthy with no visible disease symptoms"
          ++ nl ++ nl ++
          "Treatment: Continue current care practices, monitor regularly for any changes"
          ++ nl ++ nl ++
          "Prevention: Maintain proper watering, fertilization, and pest management").
Proof.
  refine (proj1 (@lookup_hit_format py_str_plain kb_none "Tomato Healthy"
                   _ _ _ _ _ eq_refl eq_refl eq_refl eq_refl eq_refl)).
Defined.

(** C9, as stated, fails: the flattening transform applied to an
    already-flat catalog does not return that catalog; it raises, because
    the fields of a record are strings and have no items. *)
Lemma flatten_flat_catalog_raises :
  flatten_disease_database tiny_catalog
    = Raise (AttributeError "object has no attribute 'items'") /\
  flatten_disease_database tiny_catalog <> Ok tiny_catalog.
Proof. split; [reflexivity|]. vm_compute. discriminate. Qed.

(** C9 (amended): flattening the degenerate hierarchy that wraps a flat
    catalog in one category and one crop yields exactly that catalog. *)
Theorem flatten_single_level (category crop : string) (m : dict) :
  NoDup (keys m) ->
  flatten_disease_database (JObj [(category, JObj [(crop, JObj m)])])
    = Ok (JObj m).
Proof.
  intros Hnd. unfold flatten_disease_database.
  cbn [items bind for_each flatten_crops flatten_diseases snd].
  rewrite copy_entries_fresh; [reflexivity|exact Hnd|].
  intros k _ [].
Qed.

Lemma flatten_single_level_witness :
  flatten_disease_database tiny_hierarchy = Ok tiny_catalog.
Proof.
  apply (@flatten_single_level "VEGETABLES" "Tomato").
  repeat constructor. simpl. intros [].
Defined.

End CatalogProps.

(** * Properties of the image preprocessor *)

Module PreprocessProps.

Import ModelUtils Examples Contracts.

Lemma unit_interval (v : Q) : in_range 0%Q 255%Q v -> in_range 0%Q 1%Q (v / 255)%Q.
Proof.
  intros [Hlo Hhi]. split.
  - apply Qle_shift_div_l; [reflexivity|]. now rewrite Qmult_0_l.
  - apply Qle_shift_div_r; [reflexivity|]. now rewrite Qmult_1_l.
Qed.

Lemma Forall_repeat {A} (P : A -> Prop) (x : A) (n : nat) :
  P x -> Forall P (repeat x n).
Proof. intros Hx. induction n; simpl; constructor; assumption. Qed.

Lemma resize_fill_spec : resize_spec resize_fill.
Proof.
  intros img target img' (Hlen & H8 & H1 & Hknown) Hcall.
  injection Hcall as <-. cbn [mode size samples].
  split; [reflexivity|]. split; [reflexivity|].
  unfold valid_image. cbn [mode size samples fst snd]. repeat split.
  - now rewrite repeat_length.
  - intros Hm. apply Forall_repeat.
    specialize (H8 Hm). destruct (samples img) as [|v t]; simpl.
    + split; discriminate.
    + now inversion H8.
  - intros Hm. apply Forall_repeat.
    specialize (H1 Hm). destruct (samples img) as [|v t]; simpl.
    + split; discriminate.
    + now inversion H1.
  - exact Hknown.
Qed.

Lemma resize_positive_spec : resize_spec MoreExamples.resize_positive.
Proof.
  intros img target img' Himg. unfold MoreExamples.resize_positive.
  destruct (Nat.eqb (fst target) 0 || Nat.eqb (snd target) 0)%bool;
    [discriminate|].
  now apply resize_fill_spec.
Qed.

Lemma gray_pixel_valid : valid_image gray_pixel.
Proof.
  repeat split; try discriminate.
  intros _. repeat constructor; discriminate.
Qed.

Lemma red_pixel_valid : valid_image red_pixel.
Proof.
  repeat split; try discriminate.
  intros _. repeat constructor; discriminate.
Qed.

(** C4, as stated, fails: preprocess does not convert to RGB itself; a
    valid greyscale image gives a tensor with three axes (1, 224, 224). *)
Lemma grayscale_has_no_band_axis :
  valid_image gray_pixel /\
  exists t, preprocess_image resize_fill gray_pixel (224, 224) = Ok t /\
            shape t = [1; 224; 224] /\
            shape t <> [1; 224; 224; 3].
Proof.
  split; [apply gray_pixel_valid|].
  eexists. split; [reflexivity|]. split; [reflexivity|].
  cbn [shape expand_dims0 true_divide astype np_array]. discriminate.
Qed.

(** C4 (amended): preprocess performs no conversion. For a valid image
    of any size and mode, when the resize to 224 x 224 returns, preprocess
    returns a float32 tensor of shape (1, 224, 224) followed by the band
    axis of the image's own mode, holding one value per sample, with every
    value in [0, 1] for the eight-bit modes; for an RGB image, which is
    what the predict handler passes after converting, the shape is
    (1, 224, 224, 3). When the resize raises, preprocess raises the same
    error. *)
Theorem preprocess_image_tensor
  (resize : image -> nat * nat -> result image) (img : image) :
  resize_spec resize ->
  valid_image img ->
  match resize img (224, 224) with
  | Raise e => preprocess_image resize img (224, 224) = Raise e
  | Ok _ =>
      exists t,
        preprocess_image resize img (224, 224) = Ok t /\
        elem t = float32 /\
        shape t = 1 :: 224 :: 224 ::
                  match snd (mode_conv (mode img)) with
                  | Some n => [n]
                  | None => []
                  end /\
        length (values t) = 224 * 224 * bands (mode img) /\
        (fst (mode_conv (mode img)) = uint8 ->
           Forall (in_range 0%Q 1%Q) (values t)) /\
        (mode img = "RGB" -> shape t = [1; 224; 224; 3])
  end.
Proof.
  intros Hresize Himg. unfold preprocess_image.
  destruct (resize img (224, 224)) as [img'|e] eqn:Hcall;
    cbn [bind try_except]; [|reflexivity].
  destruct (Hresize img (224, 224) img' Himg Hcall)
    as (Hmode & Hsize & Hlen & H8 & _).
  eexists. split; [reflexivity|]. split; [reflexivity|].
  cbn [shape values expand_dims0 true_divide astype].
  unfold np_array. rewrite Hsize, Hmode in *. cbn [shape values fst snd] in *.
  split; [now destruct (snd (mode_conv (mode img)))|].
  split; [now rewrite length_map|]. split.
  - intros Hm. apply Forall_map. eapply Forall_impl; [|apply H8; exact Hm].
    intros v Hv. now apply unit_interval.
  - intros Hrgb. now rewrite Hrgb.
Qed.

Lemma preprocess_image_tensor_witness :
  exists t,
    preprocess_image MoreExamples.resize_positive red_pixel (224, 224) = Ok t /\
    shape t = [1; 224; 224; 3] /\
    Forall (in_range 0%Q 1%Q) (values t).
Proof.
  destruct (@preprocess_image_tensor MoreExamples.resize_positive red_pixel
              resize_positive_spec red_pixel_valid)
    as (t & Hrun & _ & _ & _ & Hrange & Hrgb).
  exists t. split; [exact Hrun|]. split; [exact (Hrgb eq_refl)|].
  exact (Hrange eq_refl).
Defined.

End PreprocessProps.

(** * Properties of the prediction service *)

Module ServiceProps.

Import Treatments ModelUtils Main Examples Contracts.

(** ** Argmax *)

Lemma Qgtb_true (x y : Q) : Qgtb x y = true -> (y < x)%Q.
Proof.
  unfold Qgtb. intros H. apply Qnot_le_lt. intros Hle.
  apply Qle_bool_iff in Hle. rewrite Hle in H. discriminate.
Qed.

Lemma Qgtb_false (x y : Q) : Qgtb x y = false -> (x <= y)%Q.
Proof.
  unfold Qgtb. intros H. apply Qle_bool_iff.
  destruct (Qle_bool x y); [reflexivity|discriminate].
Qed.

Lemma argmax_from_spec (l : list Q) : forall (best_i : nat) (best : Q) (i : nat),
  (argmax_from best_i best i l = best_i /\
   Forall (fun x => x <= best)%Q l) \/
  (exists k, argmax_from best_i best i l = i + k /\
             k < length l /\
             (best < nth k l 0)%Q /\
             Forall (fun x => x <= nth k l 0)%Q l /\
             forall j, j < k -> (nth j l 0 < nth k l 0)%Q).
Proof.
  induction l as [|x t IH]; intros best_i best i; simpl.
  - left. split; [reflexivity|constructor].
  - destruct (Qgtb x best) eqn:E.
    + apply Qgtb_true in E. right.
      destruct (IH i x (S i)) as [[Hr Hall]|(k & Hr & Hk & Hgt & Hall & Hfirst)].
      * exists 0. rewrite Hr. repeat split; try lia; trivial.
        constructor; [apply Qle_refl|exact Hall].
      * exists (S k). rewrite Hr. repeat split; try lia.
        -- eapply Qlt_trans; eassumption.
        -- constructor; [now apply Qlt_le_weak|exact Hall].
        -- intros [|j] Hj; [exact Hgt|apply Hfirst; lia].
    + apply Qgtb_false in E.
      destruct (IH best_i best (S i)) as [[Hr Hall]|(k & Hr & Hk & Hgt & Hall & Hfirst)].
      * left. split; [exact Hr|]. now constructor.
      * right. exists (S k). rewrite Hr. repeat split; try lia; trivial.
        -- constructor; [|exact Hall].
           apply Qlt_le_weak. eapply Qle_lt_trans; eassumption.
        -- intros [|j] Hj; [|apply Hfirst; lia].
           eapply Qle_lt_trans; eassumption.
Qed.

(** [np_argmax] returns the first position of a largest entry. *)
Lemma np_argmax_spec (row : list Q) (i : nat) :
  np_argmax row = Ok i ->
  i < length row /\
  Forall (fun x => x <= nth i row 0)%Q row /\
  forall j, j < i -> (nth j row 0 < nth i row 0)%Q.
Proof.
  destruct row as [|x t]; simpl; [discriminate|].
  intros H. injection H as <-.
  destruct (argmax_from_spec t 0 x 1) as [[Hr Hall]|(k & Hr & Hk & Hgt & Hall & Hfirst)];
    rewrite Hr.
  - repeat split; try lia. constructor; [apply Qle_refl|exact Hall].
  - change (1 + k) with (S k). cbn [nth]. repeat split; try lia.
    + constructor; [now apply Qlt_le_weak|exact Hall].
    + intros [|j] Hj; [exact Hgt|apply Hfirst; lia].
Qed.

Lemma np_argmax_returns (row : list Q) : row <> [] -> returns (np_argmax row).
Proof. destruct row; [congruence|]. intros _. eexists. reflexivity. Qed.

Lemma argmax_from_keeps (l : list Q) (best_i : nat) (best : Q) (i : nat) :
  Forall (fun x => x <= best)%Q l -> argmax_from best_i best i l = best_i.
Proof.
  revert i. induction l as [|x t IH]; intros i Hall; simpl; [reflexivity|].
  inversion Hall as [|? ? Hx Ht]; subst.
  unfold Qgtb. apply Qle_bool_iff in Hx. rewrite Hx. simpl. now apply IH.
Qed.

Lemma np_argmax_one_hot (n : nat) : np_argmax (1%Q :: repeat 0%Q n) = Ok 0.
Proof.
  simpl. rewrite argmax_from_keeps; [reflexivity|].
  induction n; simpl; constructor; [discriminate|assumption].
Qed.

Lemma label_of_out_of_range (i : nat) :
  length disease_names <= i -> label_of i = "Unknown Disease".
Proof.
  intros H. unfold label_of.
  destruct (Nat.ltb_spec i (length disease_names)); [lia|reflexivity].
Qed.

Lemma label_of_in_range (i : nat) :
  i < length disease_names -> label_of i = nth i disease_names "".
Proof.
  intros H. unfold label_of.
  destruct (Nat.ltb_spec i (length disease_names)); [reflexivity|lia].
Qed.

(** ** Rounding *)

Lemma round_half_even_near (q : Q) :
  (inject_Z (round_half_even q) - q <= 1 # 2)%Q /\
  (q - inject_Z (round_half_even q) <= 1 # 2)%Q.
Proof.
  unfold round_half_even.
  pose proof (Qfloor_le q) as Hlo. pose proof (Qlt_floor q) as Hhi.
  rewrite inject_Z_plus in Hhi. change (inject_Z 1) with 1%Q in Hhi.
  destruct (Qcompare_spec (q - inject_Z (Qfloor q)) (1 # 2)) as [He|Hl|Hg];
    [destruct (Z.even (Qfloor q))| |];
    rewrite ?inject_Z_plus; change (inject_Z 1) with 1%Q; split; lra.
Qed.

(** On an exact tie the even neighbour is chosen. *)
Lemma round_half_even_tie (q : Q) :
  (Qabs (inject_Z (round_half_even q) - q) == 1 # 2)%Q ->
  Z.even (round_half_even q) = true.
Proof.
  unfold round_half_even.
  pose proof (Qfloor_le q) as Hlo. pose proof (Qlt_floor q) as Hhi.
  rewrite inject_Z_plus in Hhi. change (inject_Z 1) with 1%Q in Hhi.
  destruct (Qcompare_spec (q - inject_Z (Qfloor q)) (1 # 2)) as [He|Hl|Hg].
  - intros _. destruct (Z.even (Qfloor q)) eqn:E; [exact E|].
    rewrite Z.even_add, E. reflexivity.
  - intros Htie. exfalso.
    rewrite Qabs_neg in Htie by lra. lra.
  - intros Htie. exfalso. rewrite inject_Z_plus in Htie.
    change (inject_Z 1) with 1%Q in Htie.
    rewrite Qabs_pos in Htie by lra. lra.
Qed.

Lemma py_round_two (q : Q) :
  (py_round q 2 == inject_Z (round_half_even (q * 100)) / 100)%Q.
Proof. unfold py_round. now rewrite Qred_correct. Qed.

(** ** Runs of the handler *)

Section Runs.

Variable py_str_other : json -> string.
Variable image_open : list Byte.byte -> result image.
Variable convert : image -> string -> result image.
Variable resize : image -> nat * nat -> result image.

Local Abbreviation handler := (predict_disease py_str_other image_open convert resize).
Local Abbreviation body := (predict_body py_str_other image_open convert resize).
Local Abbreviation lookup := (get_treatment_suggestion py_str_other).

(** The 400 raised by the content-type check is caught by the handler's
    own [except Exception] and leaves as a 500. *)
Lemma rejected_upload (file : upload_file) (model : option keras_model)
  (kb : knowledge_base) (ctype : string) :
  content_type file = Some ctype ->
  String.prefix "image/" ctype = false ->
  handler file model kb =
  (Raise (HTTPException 500 "Prediction failed: 400: File must be an image"),
   [RaiseHTTP 400 "File must be an image";
    RaiseHTTP 500 "Prediction failed: 400: File must be an image"]).
Proof.
  intros Hct Hpre. unfold predict_disease, predict_body.
  rewrite Hct. cbn [lift iobind]. rewrite Hpre. reflexivity.
Qed.

(** A request that reaches the classifier finishes with the catalog
    lookup of the selected label. *)
Lemma classified_run (file : upload_file) (model : option keras_model)
  (kb : knowledge_base) (row : list Q) (i : nat) :
  classified image_open convert resize file model row ->
  np_argmax row = Ok i ->
  fst (body file model kb) =
  match lookup kb (label_of i) with
  | Ok t => Ok {| disease_name := label_of i;
                  confidence_score := py_round (nth i row 0 * 100)%Q 2;
                  treatment_suggestion := t |}
  | Raise e => Raise e
  end.
Proof.
  intros (ctype & img & rgb & tensor & m & rest &
          Hct & Hpre & Hopen & Hrgb & Hprep & Hmodel & Hpred) Harg.
  unfold predict_body. rewrite Hct. cbn [lift iobind]. rewrite Hpre.
  cbn [negb ret call iobind]. rewrite Hopen.
  destruct (negb (String.eqb (mode img) "RGB")); cbn [call ret iobind];
    [rewrite Hrgb|injection Hrgb as ->];
    rewrite Hprep, Hmodel; cbn [ret iobind]; rewrite Hpred;
    cbn [first_row lift iobind]; rewrite Harg;
    destruct (lookup kb (label_of i)); reflexivity.
Qed.

(** ** Events a run never emits *)









(** C2 (evaluated on the code): for a text upload the content-type check
    raises the 400, but the handler's own catch-all turns it into a 500;
    the preprocessor is not invoked. *)
Theorem non_image_upload_answers_500 (model : option keras_model)
  (kb : knowledge_base) :
  let out := handler text_upload model kb in
  fst out = Raise (HTTPException 500
                     "Prediction failed: 400: File must be an image") /\
  status_of (fst out) = 500%Z /\
  status_of (fst out) <> 400%Z /\
  snd out = [RaiseHTTP 400 "File must be an image";
             RaiseHTTP 500 "Prediction failed: 400: File must be an image"] /\
  ~ In PreprocessImage (snd out).
Proof.
  cbv zeta.
  rewrite (@rejected_upload text_upload model kb "text/plain" eq_refl eq_refl).
  cbn [fst snd status_of]. repeat split; try discriminate.
  intros [H|[H|[]]]; discriminate.
Qed.

(** What a request that reaches the classifier is answered with. *)
Lemma classified_answer (file : upload_file) (model : option keras_model)
  (kb : knowledge_base) (row : list Q) (i : nat) :
  classified image_open convert resize file model row ->
  np_argmax row = Ok i ->
  fst (handler file model kb) =
  match lookup kb (label_of i) with
  | Ok t => Ok {| disease_name := label_of i;
                  confidence_score := py_round (nth i row 0 * 100)%Q 2;
                  treatment_suggestion := t |}
  | Raise e => Raise (HTTPException 500 ("Prediction failed: " ++ str_exn e))
  end.
Proof.
  intros Hrun Harg.
  pose proof (classified_run kb Hrun Harg) as Hbody.
  unfold predict_disease, io_try_except.
  destruct (body file model kb) as [r l]. simpl in Hbody. subst r.
  destruct (lookup kb (label_of i)); reflexivity.
Qed.

(** C6 (amended): when the argmax index lies outside the label list, the
    label step does not raise: the sentinel "Unknown Disease" is what the
    catalog is asked for. When that lookup returns, the request is
    answered 200 with the sentinel as disease name; this is so whenever
    the catalog is a mapping that does not list the sentinel, as with the
    default table. When the lookup raises, the request is answered 500. *)
Theorem out_of_range_label_is_unknown (file : upload_file)
  (model : option keras_model) (kb : knowledge_base)
  (row : list Q) (i : nat) :
  classified image_open convert resize file model row ->
  np_argmax row = Ok i ->
  length disease_names <= i ->
  match lookup kb "Unknown Disease" with
  | Ok t =>
      fst (handler file model kb) =
        Ok {| disease_name := "Unknown Disease";
              confidence_score := py_round (nth i row 0 * 100)%Q 2;
              treatment_suggestion := t |} /\
      status_of (fst (handler file model kb)) = 200%Z
  | Raise e =>
      fst (handler file model kb) =
        Raise (HTTPException 500 ("Prediction failed: " ++ str_exn e)) /\
      status_of (fst (handler file model kb)) = 500%Z
  end /\
  (forall m,
     load_treatments_database kb = Ok (JObj m) ->
     dict_get "Unknown Disease" m = None ->
     fst (handler file model kb) =
       Ok {| disease_name := "Unknown Disease";
             confidence_score := py_round (nth i row 0 * 100)%Q 2;
             treatment_suggestion := miss_message "Unknown Disease" |}).
Proof.
  intros Hrun Harg Hlen.
  pose proof (classified_answer kb Hrun Harg) as Hans.
  rewrite (label_of_out_of_range Hlen) in Hans.
  split.
  - rewrite Hans. destruct (lookup kb "Unknown Disease"); split; reflexivity.
  - intros m Hload Hmiss. rewrite Hans.
    rewrite (CatalogProps.lookup_on_object py_str_other kb
               "Unknown Disease" Hload), Hmiss.
    reflexivity.
Qed.

(** C7 (amended): for a request that reaches the classifier, the selected
    probability is the largest of the row at its first position, and the
    label is the one at that position. When the catalog lookup of that
    label returns, the answer carries that label and, as confidence, one
    hundred times the selected probability rounded to two decimals: a
    multiple of 0.01 at most 0.005 away, the even multiple on a tie. When
    the lookup raises, the request is answered 500 and no confidence is
    reported. For probability 1 at index 0 and 0 elsewhere the label is
    the first of the list and the confidence is 100. *)
Theorem confidence_is_rounded_maximum (file : upload_file)
  (model : option keras_model) (kb : knowledge_base)
  (row : list Q) (i : nat) :
  classified image_open convert resize file model row ->
  np_argmax row = Ok i ->
  let p := nth i row 0%Q in
  let c := py_round (p * 100)%Q 2 in
  fst (handler file model kb) =
    match lookup kb (label_of i) with
    | Ok t => Ok {| disease_name := label_of i;
                    confidence_score := c;
                    treatment_suggestion := t |}
    | Raise e => Raise (HTTPException 500 ("Prediction failed: " ++ str_exn e))
    end /\
  In p row /\
  (forall q, In q row -> (q <= p)%Q) /\
  (forall j, j < i -> (nth j row 0 < p)%Q) /\
  (exists z : Z,
     (c == inject_Z z / 100)%Q /\
     (Qabs (inject_Z z - p * 100 * 100) <= 1 # 2)%Q /\
     ((Qabs (inject_Z z - p * 100 * 100) == 1 # 2)%Q -> Z.even z = true)) /\
  (forall n, row = 1%Q :: repeat 0%Q n ->
     i = 0 /\ label_of i = nth 0 disease_names "" /\ c = 100%Q).
Proof.
  intros Hrun Harg p c.
  destruct (np_argmax_spec row Harg) as (Hlt & Hmax & Hfirst).
  split; [exact (classified_answer kb Hrun Harg)|].
  split; [now apply nth_In|].
  split; [intros q Hq; rewrite Forall_forall in Hmax; now apply Hmax|].
  split; [exact Hfirst|]. split.
  - exists (round_half_even (p * 100 * 100)). split; [apply py_round_two|].
    split.
    + destruct (round_half_even_near (p * 100 * 100)) as [Hup Hdown].
      apply Qabs_Qle_condition. split; lra.
    + apply round_half_even_tie.
  - intros n Hrow. subst p c. subst row.
    rewrite np_argmax_one_hot in Harg. injection Harg as <-.
    repeat split.
Qed.

End Runs.

(** C5 (evaluated on the code): the label list has 71 names while the
    dummy classifier has 85 output units, so its rows are longer than the
    label list; when unit 71 is the most active the handler answers with
    the sentinel label. *)
Theorem dummy_model_outruns_labels :
  length disease_names = 71 /\
  dummy_units = 85 /\
  length disease_names < dummy_units /\
  (forall dummy_unit x,
     match predict (create_dummy_model dummy_unit) x with
     | Ok rows => Forall (fun r => length r = dummy_units) rows
     | Raise _ => True
     end) /\
  exists r,
    fst (predict_disease py_str_plain open_red convert_fill resize_fill
           jpeg_upload (Some (create_dummy_model peaked_unit)) kb_none)
      = Ok r /\
    disease_name r = "Unknown Disease".
Proof.
  split; [reflexivity|]. split; [reflexivity|].
  split; [vm_compute; lia|]. split.
  - intros dummy_unit x. cbn [predict create_dummy_model].
    destruct (shape_eqb (tl (shape x)) [224; 224; 3]); [|exact I].
    apply Forall_map. apply Forall_forall. intros b _.
    now rewrite length_map, length_seq.
  - eexists. split; [vm_compute; reflexivity|reflexivity].
Qed.

Lemma red_upload_classified (m : keras_model) (row : list Q) :
  (forall x, predict m x = Ok [row]) ->
  classified open_red convert_fill resize_fill jpeg_upload (Some m) row.
Proof.
  intros Hm.
  exists "image/jpeg", red_pixel, red_pixel.
  eexists. exists m, []. repeat split; try reflexivity. apply Hm.
Qed.

(** The dummy network with unit 71 most active, on a red upload. *)
Lemma dummy_upload_classified :
  exists row,
    classified open_red convert_fill resize_fill jpeg_upload
      (Some (create_dummy_model peaked_unit)) row /\
    np_argmax row = Ok 71.
Proof.
  eexists. split.
  - exists "image/jpeg", red_pixel, red_pixel.
    eexists. exists (create_dummy_model peaked_unit), [].
    repeat split; reflexivity.
  - reflexivity.
Qed.

(** C6, as stated, fails: with the largest probability at index 71, past
    the 71 labels, and a flat knowledge-base file that holds null, the
    lookup of the sentinel raises and the request is answered 500. *)
Lemma sentinel_lookup_can_fail :
  np_argmax MoreExamples.peaked_row = Ok 71 /\
  length disease_names <= 71 /\
  fst (predict_disease py_str_plain open_red convert_fill resize_fill
         jpeg_upload (Some (constant_model MoreExamples.peaked_row))
         MoreExamples.kb_null)
  = Raise (HTTPException 500 "Prediction failed: argument is not iterable") /\
  status_of
    (fst (predict_disease py_str_plain open_red convert_fill resize_fill
            jpeg_upload (Some (constant_model MoreExamples.peaked_row))
            MoreExamples.kb_null)) = 500%Z.
Proof.
  split; [reflexivity|]. split; [vm_compute; lia|].
  split; vm_compute; reflexivity.
Qed.

Lemma out_of_range_label_is_unknown_witness :
  exists c,
    fst (predict_disease py_str_plain open_red convert_fill resize_fill
           jpeg_upload (Some (create_dummy_model peaked_unit)) kb_none)
    = Ok {| disease_name := "Unknown Disease";
            confidence_score := c;
            treatment_suggestion := miss_message "Unknown Disease" |}.
Proof.
  destruct dummy_upload_classified as (row & Hrun & Harg).
  assert (Hlen : length disease_names <= 71) by (vm_compute; lia).
  eexists.
  exact (proj1 (proj1 (@out_of_range_label_is_unknown py_str_plain open_red
                         convert_fill resize_fill jpeg_upload _ kb_none
                         row 71 Hrun Harg Hlen))).
Defined.

(** C7, as stated, fails: with probability 1 at index 0 and a flat
    knowledge-base file whose record for the first label lacks fields,
    the lookup raises and the request is answered 500: no confidence and
    no disease name are yielded. *)
Lemma one_hot_lookup_can_fail :
  np_argmax (1%Q :: repeat 0%Q 84) = Ok 0 /\
  fst (predict_disease py_str_plain open_red convert_fill resize_fill
         jpeg_upload (Some (constant_model (1%Q :: repeat 0%Q 84)))
         MoreExamples.kb_wheat_incomplete)
  = Raise (HTTPException 500 "Prediction failed: 'treatment'").
Proof. split; [reflexivity|]. vm_compute. reflexivity. Qed.

Lemma confidence_is_rounded_maximum_witness :
  fst (predict_disease py_str_plain open_red convert_fill resize_fill
         jpeg_upload (Some (constant_model (1%Q :: repeat 0%Q 84))) kb_none)
  = Ok {| disease_name := "Wheat Rust";
          confidence_score := 100%Q;
          treatment_suggestion := miss_message "Wheat Rust" |}.
Proof.
  exact (proj1 (@confidence_is_rounded_maximum py_str_plain open_red
                  convert_fill resize_fill jpeg_upload _ kb_none _ 0
                  (red_upload_classified
                     (constant_model (1%Q :: repeat 0%Q 84))
                     (fun _ => eq_refl))
                  eq_refl)).
Defined.

(** The scenario of two competing classes: the larger one is selected and
    0.7 is reported as 70.0. *)
Example argmax_picks_larger :
  np_argmax [(3 # 10)%Q; (7 # 10)%Q] = Ok 1 /\
  py_round ((7 # 10) * 100)%Q 2 = 70%Q.
Proof. split; reflexivity. Qed.

(** Ties go to the first index, and halves round to the even neighbour. *)
Example argmax_and_round_ties :
  np_argmax [(1 # 2)%Q; (1 # 2)%Q] = Ok 0 /\
  py_round (1 # 8)%Q 2 = (3 # 25)%Q /\
  py_round (3 # 8)%Q 2 = (19 # 50)%Q.
Proof. repeat split; reflexivity. Qed.

(** The handler converts a greyscale upload before preprocessing it. *)
Example gray_upload_is_converted_first :
  snd (predict_disease py_str_plain open_gray convert_fill resize_fill
         jpeg_upload (Some (constant_model [1%Q])) kb_none)
  = [ReadUpload; OpenImage; ConvertImage; PreprocessImage; Predict;
     TreatmentLookup "Wheat Rust"].
Proof. vm_compute. reflexivity. Qed.

(** Before the startup hook has run there is no model, and the request is
    answered with a 500. *)
Example request_before_startup :
  fst (predict_disease py_str_plain open_red convert_fill resize_fill
         jpeg_upload None kb_none)
  = Raise (HTTPException 500 "Prediction failed: 500: Model not loaded").
Proof. vm_compute. reflexivity. Qed.

(** Without a model file the startup hook installs the dummy model. *)
Example startup_without_model_file :
  load_model_on_startup peaked_unit no_file no_loader "/srv/backend" None
  = Ok (Some (create_dummy_model peaked_unit)).
Proof. reflexivity. Qed.


End ServiceProps.

(** * Further properties of the treatment catalog *)

Module CatalogExtras.

Import Treatments Examples Views CatalogProps.

Local Abbreviation put := (fun (acc : dict) (e : string * json) =>
                             dict_set (fst e) (snd e) acc).

Local Abbreviation no_items :=
  (AttributeError "object has no attribute 'items'").

(** ** Python dictionaries *)

Lemma dict_get_set (k k' : string) (v : json) (d : dict) :
  dict_get k (dict_set k' v d) =
  if String.eqb k k' then Some v else dict_get k d.
Proof.
  induction d as [|[k0 v0] t IH]; simpl.
  - reflexivity.
  - destruct (String.eqb_spec k' k0) as [->|Hne]; simpl.
    + now destruct (String.eqb k k0).
    + rewrite IH. destruct (String.eqb_spec k k0) as [->|]; [|reflexivity].
      destruct (String.eqb_spec k0 k') as [->|]; [congruence|reflexivity].
Qed.

Lemma dict_get_app (k : string) (a b : dict) :
  dict_get k (a ++ b)%list =
  match dict_get k a with Some v => Some v | None => dict_get k b end.
Proof.
  induction a as [|[k0 v0] t IH]; simpl; [reflexivity|].
  now destruct (String.eqb k k0).
Qed.

Lemma dict_get_keys (k : string) (d : dict) :
  dict_get k d <> None <-> In k (keys d).
Proof.
  induction d as [|[k0 v0] t IH]; simpl.
  - split; [congruence|tauto].
  - destruct (String.eqb_spec k k0) as [->|Hne].
    + split; [now left|congruence].
    + rewrite IH. split; [now right|]. intros [H|H]; [congruence|exact H].
Qed.

Lemma dict_get_In (k : string) (v : json) (d : dict) :
  dict_get k d = Some v -> In (k, v) d.
Proof.
  induction d as [|[k0 v0] t IH]; simpl; [discriminate|].
  destruct (String.eqb_spec k k0) as [->|Hne].
  - intros H. injection H as ->. now left.
  - intros H. right. now apply IH.
Qed.

Lemma keys_dict_set (k : string) (v : json) (d : dict) :
  keys (dict_set k v d) = if dict_mem k d then keys d else (keys d ++ [k])%list.
Proof.
  unfold dict_mem. induction d as [|[k0 v0] t IH]; simpl; [reflexivity|].
  destruct (String.eqb_spec k k0) as [->|Hne]; simpl; [reflexivity|].
  rewrite IH. now destruct (dict_get k t).
Qed.

Lemma dict_set_NoDup (k : string) (v : json) (d : dict) :
  NoDup (keys d) -> NoDup (keys (dict_set k v d)).
Proof.
  intros Hnd. rewrite keys_dict_set. unfold dict_mem.
  destruct (dict_get k d) eqn:E; [exact Hnd|].
  apply NoDup_app; [exact Hnd|repeat constructor; intros []|].
  intros x Hx [<-|[]]. apply dict_get_keys in Hx. congruence.
Qed.

(** Writing a list of entries one after the other. *)
Lemma put_all_get (name : string) (entries acc : dict) :
  dict_get name (fold_left put entries acc) =
  match last_binding name entries with
  | Some v => Some v
  | None => dict_get name acc
  end.
Proof.
  unfold last_binding. revert acc.
  induction entries as [|[k v] t IH]; intros acc; simpl; [reflexivity|].
  rewrite IH, dict_get_app, dict_get_set. simpl.
  destruct (dict_get name (List.rev t)); [reflexivity|].
  now destruct (String.eqb name k).
Qed.

Lemma put_all_NoDup (entries acc : dict) :
  NoDup (keys acc) -> NoDup (keys (fold_left put entries acc)).
Proof.
  revert acc. induction entries as [|[k v] t IH]; intros acc H; simpl; trivial.
  apply IH. now apply dict_set_NoDup.
Qed.

Lemma for_each_pure {A S} (f : S -> A -> S) (l : list A) (acc : S) :
  for_each (fun a x => Ok (f a x)) acc l = Ok (fold_left f l acc).
Proof.
  revert acc. induction l as [|x t IH]; intros acc; simpl; [reflexivity|apply IH].
Qed.

(** ** The three loops of the flattening transform *)

Lemma crops_loop (crops acc : dict) :
  for_each flatten_diseases acc crops =
  if forallb (fun crop => is_object (snd crop)) crops
  then Ok (fold_left put
             (concat (map (fun crop => members_of (snd crop)) crops)) acc)
  else Raise no_items.
Proof.
  revert acc. induction crops as [|[c x] t IH]; intros acc; simpl; [reflexivity|].
  unfold flatten_diseases at 1. cbn [snd].
  destruct x; cbn [items bind is_object members_of andb]; try reflexivity.
  rewrite for_each_pure. cbn [bind]. rewrite IH, fold_left_app.
  reflexivity.
Qed.

Lemma categories_loop (cats acc : dict) :
  for_each flatten_crops acc cats =
  if forallb crops_ok cats
  then Ok (fold_left put (entries_of (JObj cats)) acc)
  else Raise no_items.
Proof.
  unfold entries_of. cbn [members_of].
  revert acc. induction cats as [|[c x] t IH]; intros acc; simpl; [reflexivity|].
  unfold flatten_crops at 1, crops_ok at 1. cbn [snd].
  destruct x; cbn [items bind members_of andb]; try reflexivity.
  rewrite crops_loop.
  destruct (forallb (fun crop => is_object (snd crop)) members);
    cbn [bind andb]; [|reflexivity].
  rewrite IH, fold_left_app. reflexivity.
Qed.

Lemma flatten_run (d : json) :
  flatten_disease_database d =
  if three_level d
  then Ok (JObj (fold_left put (entries_of d) []))
  else Raise no_items.
Proof.
  unfold flatten_disease_database.
  destruct d; cbn [items bind three_level]; try reflexivity.
  rewrite categories_loop.
  now destruct (forallb crops_ok members).
Qed.

Lemma forallb_map_all {A B} (f : A -> B) (p : B -> bool) (l : list A) :
  (forall x, p (f x) = true) -> forallb p (map f l) = true.
Proof.
  intros H. induction l as [|x t IH]; simpl; [reflexivity|].
  now rewrite H, IH.
Qed.

Lemma hierarchy_three_level (h : hierarchy) :
  three_level (json_of_hierarchy h) = true.
Proof.
  unfold json_of_hierarchy, three_level.
  apply forallb_map_all. intros [c crops]. unfold crops_ok.
  cbn [snd fst json_of_crops].
  apply forallb_map_all. now intros [k ds].
Qed.

Lemma hierarchy_entries (h : hierarchy) :
  entries_of (json_of_hierarchy h) = disease_entries h.
Proof.
  unfold entries_of, disease_entries, json_of_hierarchy. cbn [members_of].
  rewrite map_map. f_equal. apply map_ext. intros [c crops].
  cbn [snd fst json_of_crops members_of]. now rewrite map_map.
Qed.

Lemma compose_markers (d t p : string) :
  has_substring "Treatment:" (compose d t p) /\
  has_substring "Prevention:" (compose d t p).
Proof.
  unfold compose. split.
  - exists (d ++ nl ++ nl), (" " ++ t ++ nl ++ nl ++ "Prevention: " ++ p).
    now rewrite !string_app_assoc.
  - exists (d ++ nl ++ nl ++ "Treatment: " ++ t ++ nl ++ nl), (" " ++ p).
    now rewrite !string_app_assoc.
Qed.

Lemma miss_message_names (name : string) :
  has_substring name (miss_message name).
Proof.
  unfold miss_message.
  exists "No specific treatment information available for ".
  eexists. reflexivity.
Qed.

(** ** Flattening *)

(** X1: the flattening transform succeeds on every three-level source, and
    a disease name defined more than once is bound to the record of its
    last definition in iteration order. *)
Theorem flatten_last_write_wins (h : hierarchy) :
  exists m,
    flatten_disease_database (json_of_hierarchy h) = Ok (JObj m) /\
    forall name, dict_get name m = last_binding name (disease_entries h).
Proof.
  rewrite flatten_run, hierarchy_three_level, hierarchy_entries.
  eexists. split; [reflexivity|]. intros name. rewrite put_all_get.
  now destruct (last_binding name (disease_entries h)).
Qed.

(** X2: the flattened catalog has no repeated name, and its names are
    exactly the disease names of the source. *)
Theorem flatten_names (h : hierarchy) :
  exists m,
    flatten_disease_database (json_of_hierarchy h) = Ok (JObj m) /\
    NoDup (keys m) /\
    (forall name, In name (keys m) <-> In name (keys (disease_entries h))) /\
    length m <= length (disease_entries h).
Proof.
  rewrite flatten_run, hierarchy_three_level, hierarchy_entries.
  eexists. split; [reflexivity|].
  assert (Hnd : NoDup (keys (fold_left put (disease_entries h) []))).
  { apply put_all_NoDup. constructor. }
  assert (Hkeys : forall name,
             In name (keys (fold_left put (disease_entries h) [])) <->
             In name (keys (disease_entries h))).
  { intros name. rewrite <- !dict_get_keys, put_all_get. unfold last_binding.
    simpl. rewrite (dict_get_keys name (disease_entries h)).
    split.
    - intros H. destruct (dict_get name (List.rev (disease_entries h))) eqn:E;
        [|congruence].
      assert (Hin : In name (keys (List.rev (disease_entries h)))).
      { apply dict_get_keys. congruence. }
      unfold keys in *. rewrite map_rev in Hin. now apply in_rev.
    - intros Hin.
      assert (Hin' : In name (keys (List.rev (disease_entries h)))).
      { unfold keys in *. rewrite map_rev. now apply in_rev in Hin. }
      apply dict_get_keys in Hin'.
      now destruct (dict_get name (List.rev (disease_entries h))). }
  repeat split; try apply Hkeys; trivial.
  rewrite <- (length_map fst (fold_left put (disease_entries h) [])).
  rewrite <- (length_map fst (disease_entries h)).
  apply NoDup_incl_length; [exact Hnd|].
  intros name. apply Hkeys.
Qed.

(** X3: the flattening transform returns exactly on objects of objects of
    objects; on anything else it raises [AttributeError]. *)
Theorem flatten_returns_iff_three_level (d : json) :
  if three_level d
  then returns (flatten_disease_database d)
  else flatten_disease_database d = Raise no_items.
Proof.
  rewrite flatten_run. destruct (three_level d); [eexists|]; reflexivity.
Qed.

(** X4: a hierarchical file that parses but is not three levels deep makes
    the load return the default table; the flat file is not consulted. *)
Theorem malformed_hierarchy_gives_defaults (kb : knowledge_base) (d : json) :
  comprehensive kb = Present (Ok d) ->
  three_level d = false ->
  load_treatments_database kb = Ok get_default_treatments.
Proof.
  intros Hc Hd. unfold load_treatments_database, load_body.
  rewrite Hc. cbn [bind]. rewrite flatten_run, Hd. reflexivity.
Qed.

Lemma malformed_hierarchy_gives_defaults_witness :
  load_treatments_database MoreExamples.kb_flat_in_wrong_file
  = Ok get_default_treatments.
Proof.
  apply (@malformed_hierarchy_gives_defaults
           MoreExamples.kb_flat_in_wrong_file tiny_catalog);
    reflexivity.
Defined.

(** ** Lookup *)

Section Lookup.

Variable py_str_other : json -> string.

Local Abbreviation lookup := (get_treatment_suggestion py_str_other).
Local Abbreviation show := (fmt py_str_other).

Lemma complete_entry_fields (m : dict) (name : string) (info : json) :
  complete_catalog m = true ->
  dict_get name m = Some info ->
  exists r d t p,
    info = JObj r /\
    dict_get "description" r = Some d /\
    dict_get "treatment" r = Some t /\
    dict_get "prevention" r = Some p.
Proof.
  intros Hall E. apply dict_get_In in E.
  unfold complete_catalog in Hall. rewrite forallb_forall in Hall.
  specialize (Hall _ E). cbn [snd] in Hall.
  destruct info as [| | | | |r]; try discriminate.
  cbn [complete_record] in Hall.
  apply andb_prop in Hall. destruct Hall as [Hall Hp].
  apply andb_prop in Hall. destruct Hall as [Hd Ht].
  unfold dict_mem in Hd, Ht, Hp. exists r.
  destruct (dict_get "description" r) as [d|]; [|discriminate].
  destruct (dict_get "treatment" r) as [t|]; [|discriminate].
  destruct (dict_get "prevention" r) as [p|]; [|discriminate].
  exists d, t, p. auto.
Qed.

Lemma complete_lookup_returns (kb : knowledge_base) (m : dict)
  (name : string) :
  load_treatments_database kb = Ok (JObj m) ->
  complete_catalog m = true ->
  returns (lookup kb name).
Proof.
  intros Hload Hall. rewrite (lookup_on_object py_str_other kb name Hload).
  destruct (dict_get name m) as [info|] eqn:E; [|eexists; reflexivity].
  destruct (complete_entry_fields m name Hall E)
    as (r & d & t & p & -> & Hd & Ht & Hp).
  cbn [getitem bind]. rewrite Hd, Ht, Hp. eexists. reflexivity.
Qed.

(** X5: on a catalog whose records all have the three fields, lookup never
    raises: a listed name gets a message with both markers, any other name
    gets the miss message, which quotes the name. *)
Theorem complete_catalog_lookup (kb : knowledge_base) (m : dict)
  (name : string) :
  load_treatments_database kb = Ok (JObj m) ->
  complete_catalog m = true ->
  exists s,
    lookup kb name = Ok s /\
    if dict_mem name m
    then has_substring "Treatment:" s /\ has_substring "Prevention:" s
    else s = miss_message name /\ has_substring name s.
Proof.
  intros Hload Hall. rewrite (lookup_on_object py_str_other kb name Hload).
  unfold dict_mem. destruct (dict_get name m) as [info|] eqn:E.
  - destruct (complete_entry_fields m name Hall E)
      as (r & d & t & p & -> & Hd & Ht & Hp).
    cbn [getitem bind]. rewrite Hd, Ht, Hp.
    eexists. split; [reflexivity|apply compose_markers].
  - eexists. split; [reflexivity|]. split; [reflexivity|].
    apply miss_message_names.
Qed.

(** X6: when the loaded catalog is not a mapping, lookup never returns a
    composed message: it returns the miss message when the name is not
    found by [in], and raises [TypeError] otherwise. *)
Theorem lookup_on_non_object (kb : knowledge_base) (c : json)
  (name : string) :
  load_treatments_database kb = Ok c ->
  is_object c = false ->
  match contains name c with
  | Ok false => lookup kb name = Ok (miss_message name)
  | _ => exists msg, lookup kb name = Raise (TypeError msg)
  end.
Proof.
  intros Hload Hc. unfold get_treatment_suggestion. rewrite Hload.
  cbn [bind].
  destruct c as [| | |s|l|]; try discriminate; cbn [contains bind];
    try (eexists; reflexivity).
  - destruct (str_contains name s); [eexists|]; reflexivity.
  - destruct (existsb (json_eq_str name) l); [eexists|]; reflexivity.
Qed.

(** X7: with a three-level hierarchical file, lookup answers from the last
    definition of the name in that file. *)
Theorem lookup_through_hierarchy (kb : knowledge_base) (h : hierarchy)
  (name : string) :
  comprehensive kb = Present (Ok (json_of_hierarchy h)) ->
  lookup kb name =
  match last_binding name (disease_entries h) with
  | None => Ok (miss_message name)
  | Some info =>
      d <- getitem info "description" ;;
      t <- getitem info "treatment" ;;
      p <- getitem info "prevention" ;;
      Ok (compose (show d) (show t) (show p))
  end.
Proof.
  intros Hc.
  assert (Hload : load_treatments_database kb =
                  Ok (JObj (fold_left put (disease_entries h) []))).
  { unfold load_treatments_database, load_body. rewrite Hc. cbn [bind].
    now rewrite flatten_run, hierarchy_three_level, hierarchy_entries. }
  rewrite (lookup_on_object py_str_other kb name Hload), put_all_get.
  now destruct (last_binding name (disease_entries h)).
Qed.

End Lookup.

Lemma complete_catalog_lookup_witness :
  exists s,
    get_treatment_suggestion py_str_plain kb_none "Corn Common Rust" = Ok s /\
    has_substring "Treatment:" s /\ has_substring "Prevention:" s.
Proof.
  exact (@complete_catalog_lookup py_str_plain kb_none _ "Corn Common Rust"
           eq_refl eq_refl).
Defined.

Lemma lookup_on_non_object_witness :
  get_treatment_suggestion py_str_plain MoreExamples.kb_list "Wheat Rust"
    = Ok (miss_message "Wheat Rust") /\
  exists msg,
    get_treatment_suggestion py_str_plain MoreExamples.kb_list "Tomato Healthy"
    = Raise (TypeError msg).
Proof.
  split.
  - exact (@lookup_on_non_object py_str_plain MoreExamples.kb_list _
             "Wheat Rust" eq_refl eq_refl).
  - exact (@lookup_on_non_object py_str_plain MoreExamples.kb_list _
             "Tomato Healthy" eq_refl eq_refl).
Defined.

Lemma lookup_through_hierarchy_witness :
  get_treatment_suggestion py_str_plain MoreExamples.kb_dup "Leaf Spot"
  = Ok (compose "On potato" "Spray" "Drain").
Proof.
  exact (@lookup_through_hierarchy py_str_plain MoreExamples.kb_dup
           MoreExamples.dup_hierarchy "Leaf Spot" eq_refl).
Defined.

End CatalogExtras.

(** * Further properties of the image preprocessor *)

Module PreprocessExtras.

Import ModelUtils Examples Contracts Views PreprocessProps.

(** When the resize returns, the preprocessor returns the resampled
    image, scaled and given a batch axis. *)
Lemma preprocess_run (resize : image -> nat * nat -> result image)
  (img img' : image) (target : nat * nat) :
  resize_spec resize ->
  valid_image img ->
  resize img target = Ok img' ->
  mode img' = mode img /\ size img' = target /\ valid_image img' /\
  preprocess_image resize img target =
  Ok (expand_dims0 (true_divide (astype (np_array img') float32) 255%Q)).
Proof.
  intros Hresize Himg Hcall.
  destruct (Hresize img target img' Himg Hcall) as (Hmode & Hsize & Hval).
  repeat split; trivial; try apply Hval.
  unfold preprocess_image. now rewrite Hcall.
Qed.

End PreprocessExtras.

(** * Further properties of the prediction service *)

Module ServiceExtras.

Import Treatments ModelUtils Main Examples Contracts Views ServiceProps.

(** ** Rounding *)

Lemma round_half_even_mono (q1 q2 : Q) :
  (q1 <= q2)%Q -> (round_half_even q1 <= round_half_even q2)%Z.
Proof.
  intros Hle. pose proof (Qfloor_resp_le _ _ Hle) as Hf.
  unfold round_half_even.
  pose proof (Qfloor_le q1) as Hlo1. pose proof (Qlt_floor q1) as Hhi1.
  pose proof (Qfloor_le q2) as Hlo2. pose proof (Qlt_floor q2) as Hhi2.
  rewrite inject_Z_plus in Hhi1, Hhi2.
  change (inject_Z 1) with 1%Q in Hhi1, Hhi2.
  destruct (Z.eq_dec (Qfloor q1) (Qfloor q2)) as [Heq|Hne].
  - rewrite Heq in *.
    destruct (Qcompare_spec (q1 - inject_Z (Qfloor q2)) (1 # 2));
      destruct (Qcompare_spec (q2 - inject_Z (Qfloor q2)) (1 # 2));
      destruct (Z.even (Qfloor q2)); try lia; exfalso; lra.
  - destruct (Qcompare_spec (q1 - inject_Z (Qfloor q1)) (1 # 2));
      destruct (Qcompare_spec (q2 - inject_Z (Qfloor q2)) (1 # 2));
      destruct (Z.even (Qfloor q1)); destruct (Z.even (Qfloor q2)); lia.
Qed.

(** X9: rounding to two decimals lands on a multiple of 0.01 at most
    0.005 away from the value. *)
Theorem py_round_grid_and_error (q : Q) :
  (py_round q 2 * 100 == inject_Z (round_half_even (q * 100)))%Q /\
  (Qabs (py_round q 2 - q) <= 1 # 200)%Q.
Proof.
  rewrite py_round_two.
  destruct (round_half_even_near (q * 100)) as [Hup Hdown].
  set (z := inject_Z (round_half_even (q * 100))) in *. clearbody z.
  change (z / 100)%Q with (z * (1 # 100))%Q.
  split; [ring|].
  apply Qabs_Qle_condition. split; lra.
Qed.

(** X10: rounding to two decimals is monotone: a larger value is never
    reported as a smaller one. *)
Theorem py_round_monotone (q1 q2 : Q) :
  (q1 <= q2)%Q -> (py_round q1 2 <= py_round q2 2)%Q.
Proof.
  intros Hle. rewrite !py_round_two.
  assert (Hz : (round_half_even (q1 * 100) <= round_half_even (q2 * 100))%Z).
  { apply round_half_even_mono. lra. }
  rewrite Zle_Qle in Hz.
  set (z1 := inject_Z (round_half_even (q1 * 100))) in *.
  set (z2 := inject_Z (round_half_even (q2 * 100))) in *.
  clearbody z1 z2.
  change (z1 / 100)%Q with (z1 * (1 # 100))%Q.
  change (z2 / 100)%Q with (z2 * (1 # 100))%Q. lra.
Qed.

(** A percentage stays a percentage, and moves by at most 0.005. *)
Lemma py_round_percentage (q : Q) :
  in_range 0%Q 100%Q q ->
  in_range 0%Q 100%Q (py_round q 2) /\
  (Qabs (py_round q 2 - q) <= 1 # 200)%Q.
Proof.
  intros [Hlo Hhi]. unfold in_range. rewrite !py_round_two.
  assert (H0 : (round_half_even (0 * 100) <= round_half_even (q * 100))%Z).
  { apply round_half_even_mono. lra. }
  assert (H1 : (round_half_even (q * 100) <= round_half_even (100 * 100))%Z).
  { apply round_half_even_mono. lra. }
  change (round_half_even (0 * 100)) with 0%Z in H0.
  change (round_half_even (100 * 100)) with 10000%Z in H1.
  rewrite Zle_Qle in H0, H1.
  change (inject_Z 0) with 0%Q in H0.
  change (inject_Z 10000) with 10000%Q in H1.
  destruct (round_half_even_near (q * 100)) as [Hup Hdown].
  set (z := inject_Z (round_half_even (q * 100))) in *. clearbody z.
  change (z / 100)%Q with (z * (1 # 100))%Q.
  split; [split; lra|].
  apply Qabs_Qle_condition. split; lra.
Qed.

Lemma py_round_monotone_witness :
  (py_round (1 # 3) 2 <= py_round (2 # 3) 2)%Q.
Proof. apply py_round_monotone. discriminate. Defined.

(** ** Argmax *)

(** X11: [np_argmax] raises on an empty row and otherwise returns exactly
    the index that holds a largest entry with only smaller entries before
    it. *)
Theorem np_argmax_characterised (row : list Q) (i : nat) :
  (row = [] -> exists msg, np_argmax row = Raise (ValueError msg)) /\
  (np_argmax row = Ok i <->
   i < length row /\
   Forall (fun x => x <= nth i row 0)%Q row /\
   forall j, j < i -> (nth j row 0 < nth i row 0)%Q).
Proof.
  split; [intros ->; eexists; reflexivity|].
  split; [apply np_argmax_spec|].
  intros (Hlt & Hmax & Hfirst).
  destruct (np_argmax_returns (row := row)) as [i' Hi'].
  { intros ->. simpl in Hlt. lia. }
  rewrite Hi'. f_equal.
  destruct (np_argmax_spec row Hi') as (Hlt' & Hmax' & Hfirst').
  rewrite Forall_forall in Hmax, Hmax'.
  destruct (Nat.lt_trichotomy i' i) as [Hlo|[Heq|Hhi]]; [|exact Heq|].
  - specialize (Hfirst _ Hlo). specialize (Hmax' (nth i row 0%Q)).
    exfalso. apply (Qlt_irrefl (nth i' row 0%Q)).
    eapply Qlt_le_trans; [exact Hfirst|]. apply Hmax'. now apply nth_In.
  - specialize (Hfirst' _ Hhi). specialize (Hmax (nth i' row 0%Q)).
    exfalso. apply (Qlt_irrefl (nth i row 0%Q)).
    eapply Qlt_le_trans; [exact Hfirst'|]. apply Hmax. now apply nth_In.
Qed.

Lemma np_argmax_characterised_witness :
  np_argmax [(1 # 4)%Q; (1 # 2)%Q; (1 # 2)%Q] = Ok 1.
Proof.
  apply (proj2 (np_argmax_characterised _ 1)).
  split; [simpl; lia|]. split.
  - repeat constructor; discriminate.
  - intros j Hj. assert (j = 0) as -> by lia. reflexivity.
Defined.

Lemma label_of_cases (i : nat) :
  In (label_of i) disease_names \/ label_of i = "Unknown Disease".
Proof.
  unfold label_of. destruct (Nat.ltb_spec i (length disease_names)).
  - left. now apply nth_In.
  - now right.
Qed.

(** ** Requests *)

Section Requests.

Variable py_str_other : json -> string.
Variable image_open : list Byte.byte -> result image.
Variable convert : image -> string -> result image.
Variable resize : image -> nat * nat -> result image.

Local Abbreviation handler := (predict_disease py_str_other image_open convert resize).
Local Abbreviation body := (predict_body py_str_other image_open convert resize).
Local Abbreviation lookup := (get_treatment_suggestion py_str_other).

(** Follow the handler through every outcome of every step. *)
Ltac walk :=
  unfold predict_disease, predict_body, validated in *;
  repeat (cbn [iobind lift call ret raise_http io_try_except fst snd negb
               first_row np_argmax app] in *;
          match goal with
          | |- context [match ?x with _ => _ end] =>
              lazymatch x with
              | context [match _ with _ => _ end] => fail
              | (_, _) => fail
              | _ => destruct x eqn:?
              end
          end);
  cbn [iobind lift call ret raise_http io_try_except fst snd negb
       first_row np_argmax app status_of stages stage] in *.

(** X12: every answer is a 200 or a 500, and a 500 always carries a
    detail that starts with "Prediction failed: "; no request is answered
    with a 400. *)
Theorem handler_status (file : upload_file) (model : option keras_model)
  (kb : knowledge_base) :
  (exists r, fst (handler file model kb) = Ok r /\
             status_of (fst (handler file model kb)) = 200%Z) \/
  (exists msg, fst (handler file model kb) =
               Raise (HTTPException 500 ("Prediction failed: " ++ msg)) /\
               status_of (fst (handler file model kb)) = 500%Z).
Proof.
  unfold predict_disease, io_try_except.
  destruct (body file model kb) as [[r|e] l]; cbn [fst raise_http].
  - left. eexists. split; reflexivity.
  - right. eexists. split; reflexivity.
Qed.

(** X13: the collaborators are called in pipeline order and each at most
    once per request. *)
Theorem calls_in_pipeline_order (file : upload_file)
  (model : option keras_model) (kb : knowledge_base) :
  StronglySorted lt (stages (snd (handler file model kb))).
Proof.
  walk; repeat constructor; lia.
Qed.

(** X14: an upload without a content type, or with one that does not
    start with "image/", is answered with a 500 before anything is read:
    no collaborator is called. *)
Theorem unvalidated_upload_reads_nothing (file : upload_file)
  (model : option keras_model) (kb : knowledge_base) :
  validated file = false ->
  stages (snd (handler file model kb)) = [] /\
  status_of (fst (handler file model kb)) = 500%Z.
Proof.
  unfold validated, predict_disease, predict_body.
  destruct (content_type file) as [ctype|]; cbn [lift iobind].
  - intros ->. split; reflexivity.
  - intros _. split; reflexivity.
Qed.

(** X15: without a loaded model no request is classified or looked up,
    and every request is answered with a 500. *)
Theorem no_model_never_classifies (file : upload_file)
  (kb : knowledge_base) :
  ~ In Predict (snd (handler file None kb)) /\
  (forall name, ~ In (TreatmentLookup name) (snd (handler file None kb))) /\
  status_of (fst (handler file None kb)) = 500%Z.
Proof.
  walk;
    (split; [intros H; simpl in H; intuition congruence|]);
    (split; [intros name H; simpl in H; intuition congruence|]);
    reflexivity.
Qed.

(** X16: a successful answer names one of the configured labels or the
    sentinel, carries exactly what the catalog returned for that name, and
    comes from a run with a model, a lookup of that name and no raise. *)
Theorem successful_response (file : upload_file)
  (model : option keras_model) (kb : knowledge_base) (r : response) :
  fst (handler file model kb) = Ok r ->
  (In (disease_name r) disease_names \/
   disease_name r = "Unknown Disease") /\
  lookup kb (disease_name r) = Ok (treatment_suggestion r) /\
  In (TreatmentLookup (disease_name r)) (snd (handler file model kb)) /\
  existsb is_raise (snd (handler file model kb)) = false /\
  model <> None.
Proof.
  walk; intros H; try discriminate; injection H as <-;
    cbn [disease_name treatment_suggestion];
    (split; [apply label_of_cases|]);
    (split; [assumption|]);
    (split; [simpl; tauto|]);
    (split; [reflexivity|discriminate]).
Qed.

(** X17: the decoded image is converted exactly when its mode is not
    "RGB". *)
Theorem convert_only_when_needed (file : upload_file)
  (model : option keras_model) (kb : knowledge_base) (img : image) :
  validated file = true ->
  image_open (file_data file) = Ok img ->
  (In ConvertImage (snd (handler file model kb)) <-> mode img <> "RGB").
Proof.
  unfold validated, predict_disease, predict_body.
  destruct (content_type file) as [ctype|]; [|discriminate].
  cbn [lift iobind].
  intros Hp Ho. rewrite Hp. cbn [negb ret call iobind]. rewrite Ho.
  destruct (String.eqb_spec (mode img) "RGB") as [Heq|Hne];
    cbn [negb ret call iobind].
  - split; [|congruence]. walk; intros H; simpl in H; intuition congruence.
  - split; [trivial|intros _]. walk; simpl; tauto.
Qed.

(** X18: bytes that do not decode are answered with a 500 whose detail
    quotes the decoder's error; nothing after decoding is called. *)
Theorem undecodable_upload_is_500 (file : upload_file)
  (model : option keras_model) (kb : knowledge_base) (e : exn) :
  validated file = true ->
  image_open (file_data file) = Raise e ->
  handler file model kb =
  (Raise (HTTPException 500 ("Prediction failed: " ++ str_exn e)),
   [ReadUpload; OpenImage;
    RaiseHTTP 500 ("Prediction failed: " ++ str_exn e)]).
Proof.
  unfold validated, predict_disease, predict_body.
  destruct (content_type file) as [ctype|]; [|discriminate].
  cbn [lift iobind].
  intros Hp Ho. rewrite Hp. cbn [negb ret call iobind]. rewrite Ho.
  reflexivity.
Qed.

Lemma preprocess_reraises (img : image) (target : nat * nat) (e : exn) :
  resize img target = Raise e ->
  preprocess_image resize img target = Raise e.
Proof. intros H. unfold preprocess_image. now rewrite H. Qed.

(** X19: when resampling fails, the request is answered with a 500 whose
    detail quotes that error, and the classifier is never called. *)
Theorem preprocessing_failure_is_500 (file : upload_file)
  (model : option keras_model) (kb : knowledge_base)
  (img rgb : image) (e : exn) :
  validated file = true ->
  image_open (file_data file) = Ok img ->
  (if negb (String.eqb (mode img) "RGB") then convert img "RGB" else Ok img)
    = Ok rgb ->
  resize rgb (224, 224) = Raise e ->
  fst (handler file model kb) =
    Raise (HTTPException 500 ("Prediction failed: " ++ str_exn e)) /\
  ~ In Predict (snd (handler file model kb)).
Proof.
  unfold validated, predict_disease, predict_body.
  destruct (content_type file) as [ctype|]; [|discriminate].
  cbn [lift iobind].
  intros Hp Ho Hrgb Hres. apply preprocess_reraises in Hres.
  rewrite Hp. cbn [negb ret call iobind]. rewrite Ho.
  destruct (negb (String.eqb (mode img) "RGB")); cbn [ret call iobind];
    [rewrite Hrgb|injection Hrgb as ->]; rewrite Hres;
    (split; [reflexivity|intros H; simpl in H; intuition congruence]).
Qed.

(** X20: when every probability of the row lies in [0, 1], the reported
    confidence lies in [0, 100] and is within 0.005 of one hundred times
    the largest probability. *)
Theorem confidence_in_range (file : upload_file)
  (model : option keras_model) (kb : knowledge_base)
  (row : list Q) (i : nat) (t : string) :
  classified image_open convert resize file model row ->
  np_argmax row = Ok i ->
  Forall (in_range 0%Q 1%Q) row ->
  lookup kb (label_of i) = Ok t ->
  exists r,
    fst (handler file model kb) = Ok r /\
    in_range 0%Q 100%Q (confidence_score r) /\
    (Qabs (confidence_score r - nth i row 0 * 100) <= 1 # 200)%Q.
Proof.
  intros Hrun Harg Hrow Hlook.
  pose proof (classified_run py_str_other kb Hrun Harg) as Hbody.
  rewrite Hlook in Hbody.
  destruct (np_argmax_spec row Harg) as (Hlt & _ & _).
  rewrite Forall_forall in Hrow.
  destruct (Hrow (nth i row 0%Q) (nth_In row 0%Q Hlt)) as [Hlo Hhi].
  eexists. split.
  - unfold predict_disease, io_try_except.
    destruct (body file model kb) as [r l]. simpl in Hbody. subst r.
    reflexivity.
  - cbn [confidence_score]. apply py_round_percentage. split; lra.
Qed.

(** X21: with the dummy model and a catalog of complete records, every
    upload declared as an image whose decoding, conversion to RGB (when
    its mode is not RGB) and resize succeed, whatever its original mode
    and size, is answered with a 200 naming a configured label or the
    sentinel: the dummy network accepts the tensor, its row is never
    empty, and the lookup returns. *)
Theorem dummy_pipeline_answers (dummy_unit : ndarray -> nat -> nat -> Q)
  (file : upload_file) (kb : knowledge_base) (img rgb resized : image)
  (m : dict) :
  resize_spec resize ->
  convert_spec convert ->
  validated file = true ->
  image_open (file_data file) = Ok img ->
  valid_image img ->
  (if negb (String.eqb (mode img) "RGB") then convert img "RGB" else Ok img)
    = Ok rgb ->
  resize rgb (224, 224) = Ok resized ->
  load_treatments_database kb = Ok (JObj m) ->
  complete_catalog m = true ->
  exists r,
    fst (handler file (Some (create_dummy_model dummy_unit)) kb) = Ok r /\
    (In (disease_name r) disease_names \/
     disease_name r = "Unknown Disease") /\
    status_of (fst (handler file (Some (create_dummy_model dummy_unit)) kb))
      = 200%Z.
Proof.
  intros Hres Hconv Hval Hopen Himg Hprep Hcall Hload Hcat.
  assert (Hrgb : mode rgb = "RGB" /\ valid_image rgb).
  { destruct (String.eqb_spec (mode img) "RGB") as [Heq|Hne];
      cbn [negb] in Hprep.
    - injection Hprep as <-. auto.
    - destruct (Hconv img "RGB" rgb Himg Hprep) as (Hm & _ & Hv). auto. }
  destruct Hrgb as (Hmode & Hvalid).
  destruct (@PreprocessExtras.preprocess_run resize rgb resized (224, 224)
              Hres Hvalid Hcall)
    as (Hm' & Hs' & _ & Hrun).
  set (tensor :=
         expand_dims0 (true_divide (astype (np_array resized) float32) 255%Q))
    in Hrun.
  assert (Hshape : shape tensor = [1; 224; 224; 3]).
  { unfold tensor, np_array. rewrite Hs', Hm', Hmode. reflexivity. }
  set (row := map (dummy_unit tensor 0) (seq 0 dummy_units)).
  assert (Hpred : predict (create_dummy_model dummy_unit) tensor = Ok [row]).
  { cbn [predict create_dummy_model]. rewrite Hshape. reflexivity. }
  assert (Hclass : classified image_open convert resize file
                     (Some (create_dummy_model dummy_unit)) row).
  { unfold validated in Hval.
    destruct (content_type file) as [ctype|] eqn:Hct; [|discriminate].
    exists ctype, img, rgb, tensor, (create_dummy_model dummy_unit), [].
    repeat split; assumption. }
  destruct (np_argmax_returns (row := row)) as [i Hi].
  { intros H. apply (f_equal (@length Q)) in H.
    unfold row in H. rewrite length_map, length_seq in H. discriminate. }
  destruct (CatalogExtras.complete_lookup_returns py_str_other kb
              (label_of i) Hload Hcat) as (t & Ht).
  pose proof (classified_run py_str_other kb Hclass Hi) as Hbody.
  rewrite Ht in Hbody.
  unfold predict_disease, io_try_except.
  destruct (body file (Some (create_dummy_model dummy_unit)) kb) as [r l].
  simpl in Hbody. subst r. eexists. cbn [fst status_of disease_name].
  split; [reflexivity|]. split; [apply label_of_cases|reflexivity].
Qed.

End Requests.

Lemma convert_fill_spec : convert_spec convert_fill.
Proof.
  intros img m img' _. unfold convert_fill.
  destruct (known_mode m) eqn:Hknown; [|discriminate].
  intros Hcall. injection Hcall as <-. cbn [mode size].
  split; [reflexivity|]. split; [reflexivity|].
  unfold valid_image. cbn [mode size samples]. repeat split.
  - now rewrite repeat_length.
  - intros _. apply PreprocessProps.Forall_repeat. split; discriminate.
  - intros _. apply PreprocessProps.Forall_repeat. split; discriminate.
  - exact Hknown.
Qed.

Lemma unvalidated_upload_reads_nothing_witness :
  stages (snd (predict_disease py_str_plain open_red convert_fill resize_fill
                 text_upload None kb_none)) = [].
Proof.
  apply (@unvalidated_upload_reads_nothing py_str_plain open_red convert_fill
           resize_fill text_upload None kb_none eq_refl).
Defined.

Lemma successful_response_witness :
  get_treatment_suggestion py_str_plain kb_none "Wheat Rust"
  = Ok (miss_message "Wheat Rust").
Proof.
  refine (proj1 (proj2 (@successful_response py_str_plain open_red
            convert_fill resize_fill jpeg_upload
            (Some (constant_model (1%Q :: repeat 0%Q 84))) kb_none
            {| disease_name := "Wheat Rust";
               confidence_score := 100%Q;
               treatment_suggestion := miss_message "Wheat Rust" |} _))).
  vm_compute. reflexivity.
Defined.

Lemma convert_only_when_needed_witness :
  In ConvertImage
     (snd (predict_disease py_str_plain open_gray convert_fill resize_fill
             jpeg_upload None kb_none)).
Proof.
  apply (proj2 (@convert_only_when_needed py_str_plain open_gray convert_fill
                  resize_fill jpeg_upload None kb_none gray_pixel
                  eq_refl eq_refl)).
  discriminate.
Defined.

Lemma undecodable_upload_is_500_witness :
  predict_disease py_str_plain MoreExamples.open_fails convert_fill
    resize_fill jpeg_upload None kb_none =
  (Raise (HTTPException 500 "Prediction failed: cannot identify image file"),
   [ReadUpload; OpenImage;
    RaiseHTTP 500 "Prediction failed: cannot identify image file"]).
Proof.
  exact (@undecodable_upload_is_500 py_str_plain MoreExamples.open_fails
           convert_fill resize_fill jpeg_upload None kb_none _
           eq_refl eq_refl).
Defined.

Lemma preprocessing_failure_is_500_witness :
  fst (predict_disease py_str_plain open_red convert_fill
         MoreExamples.resize_fails jpeg_upload
         (Some (constant_model [1%Q])) kb_none) =
  Raise (HTTPException 500 "Prediction failed: height and width must be > 0").
Proof.
  exact (proj1 (@preprocessing_failure_is_500 py_str_plain open_red
                  convert_fill MoreExamples.resize_fails jpeg_upload
                  (Some (constant_model [1%Q])) kb_none red_pixel red_pixel _
                  eq_refl eq_refl eq_refl eq_refl)).
Defined.

Lemma confidence_in_range_witness :
  exists r,
    fst (predict_disease py_str_plain open_red convert_fill resize_fill
           jpeg_upload (Some (constant_model [(3 # 10)%Q; (7 # 10)%Q]))
           kb_none) = Ok r /\
    in_range 0%Q 100%Q (confidence_score r).
Proof.
  destruct (@confidence_in_range py_str_plain open_red convert_fill
              resize_fill jpeg_upload _ kb_none _ 1 _
              (red_upload_classified
                 (constant_model [(3 # 10)%Q; (7 # 10)%Q])
                 (fun _ => eq_refl))
              eq_refl
              (Forall_cons _ (conj (Qle_bool_imp_le 0 (3 # 10) eq_refl)
                                   (Qle_bool_imp_le (3 # 10) 1 eq_refl))
                 (Forall_cons _ (conj (Qle_bool_imp_le 0 (7 # 10) eq_refl)
                                      (Qle_bool_imp_le (7 # 10) 1 eq_refl))
                    (Forall_nil _)))
              eq_refl)
    as (r & Hr & Hrange & _).
  exists r. split; assumption.
Defined.

Lemma dummy_pipeline_answers_witness :
  exists r,
    fst (predict_disease py_str_plain open_gray convert_fill
           MoreExamples.resize_positive jpeg_upload
           (Some (create_dummy_model peaked_unit)) kb_none)
    = Ok r /\
    (In (disease_name r) disease_names \/
     disease_name r = "Unknown Disease").
Proof.
  destruct (@dummy_pipeline_answers py_str_plain open_gray convert_fill
              MoreExamples.resize_positive peaked_unit jpeg_upload kb_none
              gray_pixel _ _ _
              PreprocessProps.resize_positive_spec convert_fill_spec
              eq_refl eq_refl PreprocessProps.gray_pixel_valid
              eq_refl eq_refl eq_refl eq_refl)
    as (r & Hr & Hname & _).
  exists r. split; assumption.
Defined.

End ServiceExtras.
